(** * sistema-bancario-poo-py: the account model of [sistema_bancario_poo2.py]

    A shallow embedding of the classes [Transacao], [Deposito], [Saque],
    [Historico], [Conta] and [ContaCorrente], of the function [validar_cpf]
    and of the menu functions, followed by the properties the specification
    states about them.

    Conventions of the embedding.
    - Monetary amounts are Python floats, as [float(input(...))] gives them
      and as [_saldo = 0.0] and [limite=500.0] are: binary64 numbers,
      embedded as Rocq's primitive floats ([float]). [+=] and [-=] are the
      binary64 addition and subtraction, rounding to nearest; [<=] and [>]
      are the binary64 comparisons, false when an operand is not a number;
      [valor > x] is written [x <? valor].
    - Python integers ([_numero], [_limite_saques], [_numero_saques]) are [Z].
    - A method that mutates [self] returns the updated object next to its
      result.
    - [print] and [datetime.datetime.now()] act on a world ([Mundo]) that
      every method threads through the monad [IO].
    - A text typed by the user is a [str]: a list of Unicode code points.
      The texts the program itself builds (class names, formatted dates, the
      branch) hold ASCII characters only and are Rocq strings. *)

From Stdlib Require Import ZArith NArith QArith Qpower Lqa Lia List String Ascii Bool Floats.
Import ListNotations.

Set Warnings "-inexact-float".

Local Open Scope float_scope.

(** ** The world: standard output and the clock *)

(** The value of a [datetime.datetime] object. *)
Record datetime : Type := mk_datetime {
  year : N;
  month : N;
  day : N;
  hour : N;
  minute : N;
  second : N;
  microsecond : N
}.

(** The texts the account methods print, one constructor for each [print]
    call in the bodies of [Conta] and [ContaCorrente]. *)
Inductive Mensagem : Type :=
| ErroSaqueValorInvalido
    (* "\n@@@ Erro no saque: O valor informado é inválido (deve ser positivo). @@@" *)
| ErroSaqueSaldoInsuficiente
    (* "\n@@@ Erro no saque: Você não tem saldo suficiente. @@@" *)
| ErroDepositoValorInvalido
    (* "\n@@@ Erro no depósito: O valor informado é inválido (deve ser positivo). @@@" *)
| ErroSaqueExcedeLimite
    (* "\n@@@ Erro no saque: O valor do saque excede o limite. @@@" *)
| ErroSaqueMaximoSaques.
    (* "\n@@@ Erro no saque: Número máximo de saques diários excedido. @@@" *)

(** The error taxonomy of the specification and the error each printed
    text stands for. *)
Inductive AccountError : Type :=
| InvalidAmount
| InsufficientFunds
| LimitExceeded
| WithdrawalCapReached.

Definition erro_de (m : Mensagem) : AccountError :=
  match m with
  | ErroSaqueValorInvalido => InvalidAmount
  | ErroSaqueSaldoInsuficiente => InsufficientFunds
  | ErroDepositoValorInvalido => InvalidAmount
  | ErroSaqueExcedeLimite => LimitExceeded
  | ErroSaqueMaximoSaques => WithdrawalCapReached
  end.

(** [relogio k] is what the [k]-th call of [datetime.datetime.now()]
    returns; [tique] counts the calls made so far; [stdout] is the list of
    texts printed so far. *)
Record Mundo : Type := mk_Mundo {
  relogio : nat -> datetime;
  tique : nat;
  stdout : list Mensagem
}.

Definition IO (A : Type) : Type := Mundo -> A * Mundo.

Definition ret {A : Type} (a : A) : IO A := fun w => (a, w).

Definition bind {A B : Type} (m : IO A) (k : A -> IO B) : IO B :=
  fun w => let (a, w1) := m w in k a w1.

Declare Scope io_scope.
Delimit Scope io_scope with io.
Notation "x <- m ;; k" := (bind m (fun x => k))
  (at level 61, m at next level, right associativity) : io_scope.
Notation "m ;;; k" := (bind m (fun _ => k))
  (at level 61, right associativity) : io_scope.
Local Open Scope io_scope.

Definition print (m : Mensagem) : IO unit :=
  fun w => (tt, mk_Mundo (relogio w) (tique w) (stdout w ++ [m])).

Definition datetime_now : IO datetime :=
  fun w => (relogio w (tique w), mk_Mundo (relogio w) (S (tique w)) (stdout w)).

(** The world after one more text was printed, and after one more reading
    of the clock. *)
Definition imprimir (w : Mundo) (m : Mensagem) : Mundo := snd (print m w).
Definition avancar (w : Mundo) : Mundo := snd (datetime_now w).

(** The reading the next call of [datetime.datetime.now()] returns. *)
Definition agora (w : Mundo) : datetime := fst (datetime_now w).

(** ** [strftime("%d-%m-%Y %H:%M:%S")] *)

(** The decimal character of the last digit of [n]. *)
Definition digito (n : N) : ascii := ascii_of_N (48 + n mod 10).

(** A number below 100 on two digits, as [%d], [%m], [%H], [%M] and [%S]
    print it. *)
Definition dois_digitos (n : N) : string :=
  String (digito (n / 10)) (String (digito n) EmptyString).

(** A year from 1000 to 9999 as [%Y] prints it. *)
Definition quatro_digitos (n : N) : string :=
  String (digito (n / 1000)) (String (digito (n / 100))
    (String (digito (n / 10)) (String (digito n) EmptyString))).

Definition strftime (d : datetime) : string :=
  (dois_digitos (day d) ++ "-" ++ dois_digitos (month d) ++ "-"
   ++ quatro_digitos (year d) ++ " " ++ dois_digitos (hour d) ++ ":"
   ++ dois_digitos (minute d) ++ ":" ++ dois_digitos (second d))%string.

(** ** [Transacao], [Deposito], [Saque] *)

Inductive Classe : Type := Deposito | Saque.

(** [cls.__name__] *)
Definition __name__ (c : Classe) : string :=
  match c with
  | Deposito => "Deposito"
  | Saque => "Saque"
  end.

Record Transacao : Type := mk_Transacao {
  classe : Classe;
  valor : float;
  data : datetime
}.

(** [Transacao.__init__]: stores the amount and reads the clock. *)
Definition Transacao_init (c : Classe) (v : float) : IO Transacao :=
  t <- datetime_now ;;
  ret (mk_Transacao c v t).

Definition novo_Deposito (v : float) : IO Transacao := Transacao_init Deposito v.
Definition novo_Saque (v : float) : IO Transacao := Transacao_init Saque v.

(** ** [Historico] *)

(** The dictionary appended by [adicionar_transacao], keys [tipo], [valor]
    and [data]. *)
Record Registro : Type := mk_Registro {
  reg_tipo : string;
  reg_valor : float;
  reg_data : string
}.

Record Historico : Type := mk_Historico {
  transacoes : list Registro
}.

Definition Historico_init : Historico := mk_Historico [].

Definition adicionar_transacao (h : Historico) (t : Transacao) : Historico :=
  mk_Historico
    (transacoes h ++ [mk_Registro (__name__ (classe t)) (valor t) (strftime (data t))]).

(** ** [Conta] *)

(** A reference to the owning [Cliente] object. *)
Definition RefCliente : Type := nat.

Record Conta : Type := mk_Conta {
  _saldo : float;
  _numero : Z;
  _agencia : string;
  _cliente : RefCliente;
  _historico : Historico
}.

(** [Conta.__init__]; the balance starts at [0.0]. *)
Definition Conta_init (numero : Z) (cliente : RefCliente) : Conta :=
  mk_Conta 0 numero "0001" cliente Historico_init.

Definition set_saldo (self : Conta) (s : float) : Conta :=
  mk_Conta s (_numero self) (_agencia self) (_cliente self) (_historico self).

Definition set_historico (self : Conta) (h : Historico) : Conta :=
  mk_Conta (_saldo self) (_numero self) (_agencia self) (_cliente self) h.

(** [Conta.sacar] *)
Definition Conta_sacar (self : Conta) (v : float) : IO (bool * Conta) :=
  if v <=? 0 then
    print ErroSaqueValorInvalido ;;; ret (false, self)
  else if _saldo self <? v then
    print ErroSaqueSaldoInsuficiente ;;; ret (false, self)
  else
    let self := set_saldo self (_saldo self - v) in
    t <- novo_Saque v ;;
    let self := set_historico self (adicionar_transacao (_historico self) t) in
    ret (true, self).

(** [Conta.depositar] *)
Definition Conta_depositar (self : Conta) (v : float) : IO (bool * Conta) :=
  if v <=? 0 then
    print ErroDepositoValorInvalido ;;; ret (false, self)
  else
    let self := set_saldo self (_saldo self + v) in
    t <- novo_Deposito v ;;
    let self := set_historico self (adicionar_transacao (_historico self) t) in
    ret (true, self).

(** *** What a successful call leaves behind *)

(** The entry a successful call appends: class name, amount, and the
    clock reading taken while the call runs. *)
Definition registro_de (c : Classe) (v : float) (w : Mundo) : Registro :=
  mk_Registro (__name__ c) v (strftime (agora w)).

(** The account after a successful movement. *)
Definition movimentada (self : Conta) (s : float) (r : Registro) : Conta :=
  mk_Conta s (_numero self) (_agencia self) (_cliente self)
    (mk_Historico (transacoes (_historico self) ++ [r])).

(** ** [ContaCorrente] *)

(** A [ContaCorrente] object: the attributes set by [Conta.__init__]
    ([da_conta]) and the three set by [ContaCorrente.__init__]. *)
Record ContaCorrente : Type := mk_ContaCorrente {
  da_conta : Conta;
  _limite : float;
  _limite_saques : Z;
  _numero_saques : Z
}.

Definition limite_padrao : float := 500.
Definition limite_saques_padrao : Z := 3.

Definition ContaCorrente_init (numero : Z) (cliente : RefCliente)
    (limite : float) (limite_saques : Z) : ContaCorrente :=
  mk_ContaCorrente (Conta_init numero cliente) limite limite_saques 0.

(** [ContaCorrente.nova_conta(cliente, numero)], that is [cls(numero, cliente)]
    with the default limits. *)
Definition ContaCorrente_nova_conta (cliente : RefCliente) (numero : Z) : ContaCorrente :=
  ContaCorrente_init numero cliente limite_padrao limite_saques_padrao.

Definition set_da_conta (self : ContaCorrente) (c : Conta) : ContaCorrente :=
  mk_ContaCorrente c (_limite self) (_limite_saques self) (_numero_saques self).

Definition set_numero_saques (self : ContaCorrente) (n : Z) : ContaCorrente :=
  mk_ContaCorrente (da_conta self) (_limite self) (_limite_saques self) n.

(** [ContaCorrente.sacar] *)
Definition ContaCorrente_sacar (self : ContaCorrente) (v : float) : IO (bool * ContaCorrente) :=
  let excedeu_limite := _limite self <? v in
  let excedeu_saques := (_numero_saques self >=? _limite_saques self)%Z in
  if excedeu_limite then
    print ErroSaqueExcedeLimite ;;; ret (false, self)
  else if excedeu_saques then
    print ErroSaqueMaximoSaques ;;; ret (false, self)
  else
    r <- Conta_sacar (da_conta self) v ;;
    let self := set_da_conta self (snd r) in
    if fst r then
      let self := set_numero_saques self (_numero_saques self + 1)%Z in
      ret (true, self)
    else ret (false, self).

(** [ContaCorrente] inherits [depositar] from [Conta]. *)
Definition ContaCorrente_depositar (self : ContaCorrente) (v : float) : IO (bool * ContaCorrente) :=
  r <- Conta_depositar (da_conta self) v ;;
  ret (fst r, set_da_conta self (snd r)).

(** ** Account objects and method dispatch *)

(** An account object is an instance of [Conta] or of its subclass. *)
Inductive Objeto : Type :=
| UmaConta (c : Conta)
| UmaContaCorrente (cc : ContaCorrente).

Definition conta_de (o : Objeto) : Conta :=
  match o with
  | UmaConta c => c
  | UmaContaCorrente cc => da_conta cc
  end.

(** The properties [saldo] and [historico]. *)
Definition saldo (o : Objeto) : float := _saldo (conta_de o).
Definition historico (o : Objeto) : Historico := _historico (conta_de o).

(** [conta.sacar(valor)] *)
Definition sacar (o : Objeto) (v : float) : IO (bool * Objeto) :=
  match o with
  | UmaConta c => r <- Conta_sacar c v ;; ret (fst r, UmaConta (snd r))
  | UmaContaCorrente cc => r <- ContaCorrente_sacar cc v ;; ret (fst r, UmaContaCorrente (snd r))
  end.

(** [conta.depositar(valor)] *)
Definition depositar (o : Objeto) (v : float) : IO (bool * Objeto) :=
  match o with
  | UmaConta c => r <- Conta_depositar c v ;; ret (fst r, UmaConta (snd r))
  | UmaContaCorrente cc => r <- ContaCorrente_depositar cc v ;; ret (fst r, UmaContaCorrente (snd r))
  end.

(** [Deposito.registrar] and [Saque.registrar] *)
Definition registrar (t : Transacao) (conta : Objeto) : IO (bool * Objeto) :=
  match classe t with
  | Deposito => depositar conta (valor t)
  | Saque => sacar conta (valor t)
  end.

(** ** Sequences of calls *)

(** The ways an account object comes into being. *)
Inductive Construtor : Type :=
| NovaConta (numero : Z) (cliente : RefCliente)
| NovaContaCorrente (numero : Z) (cliente : RefCliente) (limite : float) (limite_saques : Z).

Definition construir (k : Construtor) : Objeto :=
  match k with
  | NovaConta n c => UmaConta (Conta_init n c)
  | NovaContaCorrente n c l ls => UmaContaCorrente (ContaCorrente_init n c l ls)
  end.

Inductive Chamada : Type :=
| Depositar (v : float)
| Sacar (v : float).

Definition chamar (o : Objeto) (c : Chamada) : IO (bool * Objeto) :=
  match c with
  | Depositar v => depositar o v
  | Sacar v => sacar o v
  end.

(** The same calls on an object known to be a [ContaCorrente]. *)
Definition chamar_cc (cc : ContaCorrente) (c : Chamada) : IO (bool * ContaCorrente) :=
  match c with
  | Depositar v => ContaCorrente_depositar cc v
  | Sacar v => ContaCorrente_sacar cc v
  end.

Section Sequencias.

Context {O : Type} (chamar : O -> Chamada -> IO (bool * O)).

(** Runs the calls in order on the same object; returns what each call
    returned, and the object at the end. *)
Fixpoint executar (o : O) (cs : list Chamada) : IO (list bool * O) :=
  match cs with
  | [] => ret ([], o)
  | c :: cs' =>
      r <- chamar o c ;;
      rs <- executar (snd r) cs' ;;
      ret (fst r :: fst rs, snd rs)
  end.

End Sequencias.

(** The amounts of the accepted deposits (resp. withdrawals) of a sequence
    of calls, in the order of the calls, given what each call returned. *)
Fixpoint depositos_aceitos (cs : list Chamada) (rs : list bool) : list float :=
  match cs, rs with
  | Depositar v :: cs', true :: rs' => v :: depositos_aceitos cs' rs'
  | _ :: cs', _ :: rs' => depositos_aceitos cs' rs'
  | _, _ => []
  end.

Fixpoint saques_aceitos (cs : list Chamada) (rs : list bool) : list float :=
  match cs, rs with
  | Sacar v :: cs', true :: rs' => v :: saques_aceitos cs' rs'
  | _ :: cs', _ :: rs' => saques_aceitos cs' rs'
  | _, _ => []
  end.

(** Number of successful withdrawals in a sequence of calls. *)
Fixpoint saques_realizados (cs : list Chamada) (rs : list bool) : Z :=
  match cs, rs with
  | Sacar _ :: cs', true :: rs' => (1 + saques_realizados cs' rs')%Z
  | _ :: cs', _ :: rs' => saques_realizados cs' rs'
  | _, _ => 0%Z
  end.

(** Number of calls that returned [True]. *)
Definition chamadas_aceitas (rs : list bool) : nat := List.length (List.filter (fun b => b) rs).

(** ** Amounts as numbers *)

Definition SFzero : spec_float := S754_zero false.

(** The rational number a binary64 value stands for (zero for the
    infinities and for the values that are not a number). *)
Definition SF2Q (x : spec_float) : Q :=
  match x with
  | S754_finite s m e =>
      ((if s then - inject_Z (Zpos m) else inject_Z (Zpos m)) * Qpower 2 e)%Q
  | _ => 0%Q
  end.

Definition exato (x : float) : Q := SF2Q (Prim2SF x).

(** The sum, as a rational number, of the numbers a list of amounts stands
    for. *)
Definition soma_exata (vs : list float) : Q :=
  fold_right (fun v total => (exato v + total)%Q) 0%Q vs.


(** ** Texts typed by the user *)

(** A Python [str]: its Unicode code points. *)
Definition str : Type := list N.

(** The [str] of a text of ASCII characters. *)
Definition texto (s : string) : str := List.map N_of_ascii (list_ascii_of_string s).

(** [a == b] on two [str]. *)
Fixpoint str_eqb (a b : str) : bool :=
  match a, b with
  | [], [] => true
  | x :: a', y :: b' => (x =? y)%N && str_eqb a' b'
  | _, _ => false
  end.

(** ** [validar_cpf] *)

(** What evaluating a Python expression yields: a value, or a raised
    exception. *)
Inductive Excecao : Type := ValueError | IndexError.

Inductive Resultado (A : Type) : Type :=
| Retorna (a : A)
| Levanta (e : Excecao).
Arguments Retorna {A} a.
Arguments Levanta {A} e.

Definition ligar {A B : Type} (m : Resultado A) (k : A -> Resultado B) : Resultado B :=
  match m with
  | Retorna a => k a
  | Levanta e => Levanta e
  end.

Notation "x <~ m ;; k" := (ligar m (fun x => k))
  (at level 61, m at next level, right associativity) : io_scope.

(** The decimal digits of Unicode 14.0.0, the character database of
    Python 3.11 (general category Nd, the characters [int] reads): 66 runs
    of ten consecutive code points, each run holding the digits of value 0
    to 9 of one script in order. The list gives the first code point of
    each run; the first run is that of the ASCII digits. *)
Definition inicios_decimais : list N :=
  [0x30; 0x660; 0x6f0; 0x7c0; 0x966; 0x9e6; 0xa66; 0xae6; 0xb66; 0xbe6; 0xc66;
   0xce6; 0xd66; 0xde6; 0xe50; 0xed0; 0xf20; 0x1040; 0x1090; 0x17e0; 0x1810;
   0x1946; 0x19d0; 0x1a80; 0x1a90; 0x1b50; 0x1bb0; 0x1c40; 0x1c50; 0xa620;
   0xa8d0; 0xa900; 0xa9d0; 0xa9f0; 0xaa50; 0xabf0; 0xff10; 0x104a0; 0x10d30;
   0x11066; 0x110f0; 0x11136; 0x111d0; 0x112f0; 0x11450; 0x114d0; 0x11650;
   0x116c0; 0x11730; 0x118e0; 0x11950; 0x11c50; 0x11d50; 0x11da0; 0x16a60;
   0x16ac0; 0x16b50; 0x1d7ce; 0x1d7d8; 0x1d7e2; 0x1d7ec; 0x1d7f6; 0x1e140;
   0x1e2f0; 0x1e950; 0x1fbf0]%N.

(** The other characters of numeric type Digit in the same database
    (superscripts, subscripts, circled and parenthesized digits and the
    like), as ranges of code points, both ends included. *)
Definition outros_digitos : list (N * N) :=
  [(0xb2, 0xb3); (0xb9, 0xb9); (0x1369, 0x1371); (0x19da, 0x19da);
   (0x2070, 0x2070); (0x2074, 0x2079); (0x2080, 0x2089); (0x2460, 0x2468);
   (0x2474, 0x247c); (0x2488, 0x2490); (0x24ea, 0x24ea); (0x24f5, 0x24fd);
   (0x24ff, 0x24ff); (0x2776, 0x277e); (0x2780, 0x2788); (0x278a, 0x2792);
   (0x10a40, 0x10a43); (0x10e60, 0x10e68); (0x11052, 0x1105a);
   (0x1f100, 0x1f10a)]%N.

(** The run of decimal digits a character belongs to, given by the first
    code point of the run (the digit zero of its script), when the
    character is a decimal digit. *)
Definition escrita (c : N) : option N :=
  List.find (fun i => (i <=? c) && (c <? i + 10))%N inicios_decimais.

(** The value of a character as a decimal digit, when it is one: its
    distance from the digit zero of its script. *)
Definition valor_decimal (c : N) : option Z :=
  match escrita c with
  | Some i => Some (Z.of_N (c - i))
  | None => None
  end.

(** The decimal characters: those [int] reads. *)
Definition decimal (c : N) : bool :=
  match valor_decimal c with
  | Some _ => true
  | None => false
  end.

(** [str.isdigit] on one character: true of the decimal characters and of
    the other characters of numeric type Digit. *)
Definition isdigit (c : N) : bool :=
  decimal c || List.existsb (fun r => (fst r <=? c) && (c <=? snd r))%N outros_digitos.

(** [int(c)] for a one-character string: the value of a decimal character,
    [ValueError] for any other character. *)
Definition int (c : N) : Resultado Z :=
  match valor_decimal c with
  | Some d => Retorna d
  | None => Levanta ValueError
  end.

(** [s[i]] *)
Definition indice (s : str) (i : nat) : Resultado N :=
  match nth_error s i with
  | Some c => Retorna c
  | None => Levanta IndexError
  end.

(** The loop [for i in range: soma += int(cpf[i]) * (peso - i)]. *)
Fixpoint somar (cpf : str) (peso : Z) (range : list nat) (soma : Z) : Resultado Z :=
  match range with
  | [] => Retorna soma
  | i :: range' =>
      c <~ indice cpf i ;;
      d <~ int c ;;
      somar cpf peso range' (soma + d * (peso - Z.of_nat i))%Z
  end.

(** [validar_cpf]; [''.join(filter(str.isdigit, cpf))] is [List.filter],
    and [cpf[0] * 11] is [repeat]. *)
Definition validar_cpf (cpf : str) : Resultado bool :=
  let cpf := List.filter isdigit cpf in
  if negb (List.length cpf =? 11)%nat then Retorna false else
  c0 <~ indice cpf 0 ;;
  if str_eqb cpf (repeat c0 11) then Retorna false else
  soma <~ somar cpf 10 (seq 0 9) 0 ;;
  let resto := (soma mod 11)%Z in
  let digito1 := (if resto <? 2 then 0 else 11 - resto)%Z in
  c9 <~ indice cpf 9 ;;
  d9 <~ int c9 ;;
  if negb (digito1 =? d9)%Z then Retorna false else
  soma <~ somar cpf 11 (seq 0 10) 0 ;;
  let resto := (soma mod 11)%Z in
  let digito2 := (if resto <? 2 then 0 else 11 - resto)%Z in
  c10 <~ indice cpf 10 ;;
  d10 <~ int c10 ;;
  if negb (digito2 =? d10)%Z then Retorna false else
  Retorna true.

(** *** The validator as the specification words it *)

Module Spec.

(** The value of a character that is a decimal digit. *)
Definition digit_value (c : N) : Z :=
  match valor_decimal c with
  | Some d => d
  | None => 0%Z
  end.

(** The digits left after stripping every non-digit character. *)
Definition digits (candidate : str) : list Z :=
  List.map digit_value (List.filter decimal candidate).

Definition all_identical (ds : list Z) : bool :=
  match ds with
  | [] => true
  | d :: ds' => List.forallb (Z.eqb d) ds'
  end.

(** Sum of the digits, the first weighted by [w], the next by [w - 1],
    and so on. *)
Fixpoint weighted_sum (w : Z) (ds : list Z) : Z :=
  match ds with
  | [] => 0%Z
  | d :: ds' => (d * w + weighted_sum (w - 1) ds')%Z
  end.

Definition check_digit (w : Z) (ds : list Z) : Z :=
  let remainder := (weighted_sum w ds mod 11)%Z in
  if (remainder <? 2)%Z then 0%Z else (11 - remainder)%Z.

Definition validate (candidate : str) : bool :=
  let ds := digits candidate in
  (List.length ds =? 11)%nat
  && negb (all_identical ds)
  && (check_digit 10 (firstn 9 ds) =? nth 9 ds 0)%Z
  && (check_digit 11 (firstn 10 ds) =? nth 10 ds 0)%Z.

End Spec.

(** A text of eleven characters: ["1"] followed by ten times U+00B2
    (superscript two). *)
Definition cpf_sobrescrito : str := 0x31%N :: repeat 0xb2%N 10.

(** ** What one call may do to an object *)

(** The effect of a call that returned [ok] and turned [o] into [o']. *)
Definition efeito (o : Objeto) (c : Chamada) (ok : bool) (o' : Objeto) : Prop :=
  match c, ok with
  | _, false => o' = o
  | Depositar v, true =>
      (v <=? 0) = false /\ saldo o' = saldo o + v
      /\ exists d, transacoes (historico o') =
                     transacoes (historico o) ++ [mk_Registro "Deposito" v d]
  | Sacar v, true =>
      (v <=? 0) = false /\ (saldo o <? v) = false /\ saldo o' = saldo o - v
      /\ exists d, transacoes (historico o') =
                     transacoes (historico o) ++ [mk_Registro "Saque" v d]
  end.

(** The same for the attributes of a [ContaCorrente]. *)
Definition efeito_cc (cc : ContaCorrente) (c : Chamada) (ok : bool) (cc' : ContaCorrente) : Prop :=
  match c, ok with
  | _, false => cc' = cc
  | Depositar v, true =>
      _limite cc' = _limite cc /\ _limite_saques cc' = _limite_saques cc
      /\ _numero_saques cc' = _numero_saques cc
  | Sacar v, true =>
      (_limite cc <? v) = false
      /\ _limite cc' = _limite cc /\ _limite_saques cc' = _limite_saques cc
      /\ (_numero_saques cc < _limite_saques cc)%Z
      /\ _numero_saques cc' = (_numero_saques cc + 1)%Z
  end.

(** ** Statements that the code is tested against *)


(** "[depositar] of an amount that is not [<= 0] increases the balance by
    exactly the amount", as numbers: for every account object. *)
Definition depositar_soma_exata : Prop :=
  forall (o : Objeto) (v : float) (w : Mundo),
    (v <=? 0) = false ->
    (exato (saldo (snd (fst (depositar o v w)))) == exato (saldo o) + exato v)%Q.

(** "[Conta.sacar] of an amount that passes both tests decreases the balance
    by exactly the amount", as numbers: for every [Conta]. *)
Definition Conta_sacar_subtrai_exato : Prop :=
  forall (self : Conta) (v : float) (w : Mundo),
    (v <=? 0) = false -> (_saldo self <? v) = false ->
    (exato (_saldo (snd (fst (Conta_sacar self v w)))) == exato (_saldo self) - exato v)%Q.

(** "For every [ContaCorrente] and every amount [> 0], [depositar] succeeds
    and increases the balance by the amount", as numbers. *)
Definition ContaCorrente_depositar_soma_exata : Prop :=
  forall (self : ContaCorrente) (v : float) (w : Mundo),
    (0 <? v) = true ->
    fst (fst (ContaCorrente_depositar self v w)) = true
    /\ (exato (_saldo (da_conta (snd (fst (ContaCorrente_depositar self v w))))) ==
          exato (_saldo (da_conta self)) + exato v)%Q.

(** A world where nothing was printed yet and whose clock, read every 20
    microseconds, shows 12:00:00.999990 on 4 November 2026 at the first
    reading. *)
Definition mundo_exemplo : Mundo :=
  mk_Mundo
    (fun k =>
       let us := (999990 + 20 * N.of_nat k)%N in
       mk_datetime 2026 11 4 12 0 (us / 1000000) (us mod 1000000))
    0 [].

(** "The entry appended for a transaction that was applied carries the
    class name, the amount and the formatted timestamp of that transaction":
    for a transaction built in any world and then registered on any account
    object. *)
Definition registro_com_data_da_transacao : Prop :=
  forall (c : Classe) (v : float) (conta : Objeto) (w : Mundo),
    let t := fst (Transacao_init c v w) in
    let r := registrar t conta (snd (Transacao_init c v w)) in
    fst (fst r) = true ->
    transacoes (historico (snd (fst r))) =
      transacoes (historico conta)
        ++ [mk_Registro (__name__ (classe t)) (valor t) (strftime (data t))].

(** ** Objects of the examples *)

(** The account of the end-to-end scenario: a [ContaCorrente] numbered 1,
    created with the default limits. *)
Definition conta_exemplo : ContaCorrente := ContaCorrente_nova_conta 0%nat 1%Z.

(** The calls of that scenario. *)
Definition chamadas_exemplo : list Chamada :=
  [Depositar 1000; Sacar 600; Sacar 400; Sacar 400; Sacar 400].

(** A [ContaCorrente] with a cap of one withdrawal, and calls that use it
    up. *)
Definition conta_um_saque : ContaCorrente := ContaCorrente_init 2%Z 0%nat 500 1%Z.
Definition chamadas_um_saque : list Chamada := [Depositar 100; Sacar 50].

(** The base account after a deposit of 100. *)
Definition conta_com_saldo : Conta :=
  snd (fst (Conta_depositar (Conta_init 3%Z 0%nat) 100 mundo_exemplo)).

(** Calls whose amounts are whole numbers and whose balance the binary64
    arithmetic rounds: a deposit of 1, a deposit of 10000000000000000 and a
    withdrawal of 10000000000000000. *)
Definition chamadas_arredondadas : list Chamada :=
  [Depositar 1; Depositar 1e16; Sacar 1e16].

(** The base account after a deposit of 10000000000000000. *)
Definition conta_grande : Conta :=
  snd (fst (Conta_depositar (Conta_init 4%Z 0%nat) 1e16 mundo_exemplo)).

(** A [ContaCorrente] after a deposit of 9007199254740992, that is 2^53. *)
Definition conta_corrente_grande : ContaCorrente :=
  snd (fst (ContaCorrente_depositar (ContaCorrente_nova_conta 0%nat 5%Z)
              9007199254740992 mundo_exemplo)).

(** ** What a sequence of calls leaves in the history *)

Definition classe_de (c : Chamada) : Classe :=
  match c with
  | Depositar _ => Deposito
  | Sacar _ => Saque
  end.

Definition valor_de (c : Chamada) : float :=
  match c with
  | Depositar v => v
  | Sacar v => v
  end.

(** The calls of [cs] that returned [True], given what each call returned. *)
Fixpoint aceitas (cs : list Chamada) (rs : list bool) : list Chamada :=
  match cs, rs with
  | c :: cs', true :: rs' => c :: aceitas cs' rs'
  | _ :: cs', false :: rs' => aceitas cs' rs'
  | _, _ => []
  end.

(** One entry for each call of [cs]: the first dated by the reading number
    [k] of the clock, the next by the reading after it, and so on. *)
Fixpoint registros (clock : nat -> datetime) (k : nat) (cs : list Chamada) : list Registro :=
  match cs with
  | [] => []
  | c :: cs' =>
      mk_Registro (__name__ (classe_de c)) (valor_de c) (strftime (clock k))
        :: registros clock (S k) cs'
  end.

(** Number of calls that returned [False]. *)
Definition chamadas_recusadas (rs : list bool) : nat :=
  List.length (List.filter negb rs).

(** The attributes that no method assigns after [__init__]: number, branch,
    owner and, on a [ContaCorrente], the two limits. *)
Definition atributos_fixos (o : Objeto) : Z * string * RefCliente * option (float * Z) :=
  (_numero (conta_de o), _agencia (conta_de o), _cliente (conta_de o),
   match o with
   | UmaConta _ => None
   | UmaContaCorrente cc => Some (_limite cc, _limite_saques cc)
   end).

(** ** The balance a history accounts for *)

(** What an entry does to the balance: a [Deposito] adds its amount, any
    other entry subtracts it. *)
Definition lancamento (s : float) (r : Registro) : float :=
  if String.eqb (reg_tipo r) "Deposito" then s + reg_valor r else s - reg_valor r.

(** The balance that the entries of a history build up from [0.0], in
    binary64 arithmetic, entry after entry. *)
Definition total_do_historico (h : Historico) : float :=
  fold_left lancamento (transacoes h) 0.

(** ** Digits as text *)

(** The ASCII character of a digit from 0 to 9, and the text of a list of
    digits. *)
Definition caractere (d : Z) : N := Z.to_N (48 + d).

Definition texto_de (ds : list Z) : str := List.map caractere ds.

(** * The first revision, [sistema_bancario_poo.py]

    The classes of the first revision hold the same attributes, so the
    records above are shared. The methods differ: [Conta.sacar] and
    [Conta.depositar] print a text on success and leave the history alone,
    and [registrar] appends the transaction itself to the history when the
    account's method returned [True]. *)

Module Rev1.

(** The texts printed by the classes of the first revision. *)
Inductive Mensagem : Type :=
| FalhouValorInvalido
    (* "\n@@@ Operação falhou! O valor informado é inválido. @@@" *)
| FalhouSaldoInsuficiente
    (* "\n@@@ Operação falhou! Você não tem saldo suficiente. @@@" *)
| SaqueRealizado
    (* "\n=== Saque realizado com sucesso! ===" *)
| DepositoRealizado
    (* "\n=== Depósito realizado com sucesso! ===" *)
| FalhouExcedeLimite
    (* "\n@@@ Operação falhou! O valor do saque excede o limite. @@@" *)
| FalhouMaximoSaques
    (* "\n@@@ Operação falhou! Número máximo de saques excedido. @@@" *)
| OperacaoRealizada (nome : string)
    (* f"\nOperação de {transacao.__class__.__name__} realizada com sucesso!" *)
| FalhaNaOperacao (nome : string)
    (* f"\nFalha ao realizar a operação de {transacao.__class__.__name__}." *)
| TransacaoInvalida.
    (* "\nTransação inválida. Deve ser uma instância de Deposito ou Saque." *)

Record Mundo : Type := mk_Mundo {
  relogio : nat -> datetime;
  tique : nat;
  stdout : list Mensagem
}.

Definition IO (A : Type) : Type := Mundo -> A * Mundo.

Definition ret {A : Type} (a : A) : IO A := fun w => (a, w).

Definition bind {A B : Type} (m : IO A) (k : A -> IO B) : IO B :=
  fun w => let (a, w1) := m w in k a w1.

Declare Scope io1_scope.
Notation "x <- m ;; k" := (bind m (fun x => k))
  (at level 61, m at next level, right associativity) : io1_scope.
Notation "m ;;; k" := (bind m (fun _ => k))
  (at level 61, right associativity) : io1_scope.
Local Open Scope io1_scope.

Definition print (m : Mensagem) : IO unit :=
  fun w => (tt, mk_Mundo (relogio w) (tique w) (stdout w ++ [m])).

Definition datetime_now : IO datetime :=
  fun w => (relogio w (tique w), mk_Mundo (relogio w) (S (tique w)) (stdout w)).

(** [Transacao.__init__] *)
Definition Transacao_init (c : Classe) (v : float) : IO Transacao :=
  t <- datetime_now ;;
  ret (mk_Transacao c v t).

(** [Conta.sacar] *)
Definition Conta_sacar (self : Conta) (v : float) : IO (bool * Conta) :=
  if v <=? 0 then
    print FalhouValorInvalido ;;; ret (false, self)
  else if _saldo self <? v then
    print FalhouSaldoInsuficiente ;;; ret (false, self)
  else
    let self := set_saldo self (_saldo self - v) in
    print SaqueRealizado ;;; ret (true, self).

(** [Conta.depositar] *)
Definition Conta_depositar (self : Conta) (v : float) : IO (bool * Conta) :=
  if v <=? 0 then
    print FalhouValorInvalido ;;; ret (false, self)
  else
    let self := set_saldo self (_saldo self + v) in
    print DepositoRealizado ;;; ret (true, self).

(** [ContaCorrente.sacar] *)
Definition ContaCorrente_sacar (self : ContaCorrente) (v : float) : IO (bool * ContaCorrente) :=
  let excedeu_limite := _limite self <? v in
  let excedeu_saques := (_numero_saques self >=? _limite_saques self)%Z in
  if excedeu_limite then
    print FalhouExcedeLimite ;;; ret (false, self)
  else if excedeu_saques then
    print FalhouMaximoSaques ;;; ret (false, self)
  else
    r <- Conta_sacar (da_conta self) v ;;
    let self := set_da_conta self (snd r) in
    if fst r then
      let self := set_numero_saques self (_numero_saques self + 1)%Z in
      ret (true, self)
    else ret (false, self).

(** [conta.sacar(valor)] and [conta.depositar(valor)] *)
Definition sacar (o : Objeto) (v : float) : IO (bool * Objeto) :=
  match o with
  | UmaConta c => r <- Conta_sacar c v ;; ret (fst r, UmaConta (snd r))
  | UmaContaCorrente cc => r <- ContaCorrente_sacar cc v ;; ret (fst r, UmaContaCorrente (snd r))
  end.

Definition depositar (o : Objeto) (v : float) : IO (bool * Objeto) :=
  match o with
  | UmaConta c => r <- Conta_depositar c v ;; ret (fst r, UmaConta (snd r))
  | UmaContaCorrente cc =>
      r <- Conta_depositar (da_conta cc) v ;;
      ret (fst r, UmaContaCorrente (set_da_conta cc (snd r)))
  end.

(** [conta.historico.adicionar_transacao(transacao)] *)
Definition historico_adicionar (o : Objeto) (t : Transacao) : Objeto :=
  match o with
  | UmaConta c => UmaConta (set_historico c (adicionar_transacao (_historico c) t))
  | UmaContaCorrente cc =>
      UmaContaCorrente
        (set_da_conta cc
           (set_historico (da_conta cc) (adicionar_transacao (_historico (da_conta cc)) t)))
  end.

(** [Deposito.registrar] and [Saque.registrar] *)
Definition registrar (self : Transacao) (conta : Objeto) : IO (bool * Objeto) :=
  r <- match classe self with
       | Deposito => depositar conta (valor self)
       | Saque => sacar conta (valor self)
       end ;;
  if fst r then ret (true, historico_adicionar (snd r) self)
  else ret (false, snd r).

(** [Cliente.realizar_transacao], for a [transacao] that is an instance of
    [Deposito] or [Saque]; it returns [None]. *)
Definition realizar_transacao (conta : Objeto) (transacao : Transacao) : IO (unit * Objeto) :=
  r <- registrar transacao conta ;;
  (if fst r then print (OperacaoRealizada (__name__ (classe transacao)))
   else print (FalhaNaOperacao (__name__ (classe transacao)))) ;;;
  ret (tt, snd r).

End Rev1.

(** ** The two revisions side by side *)

(** The history without its dates. *)
Definition sem_datas (h : Historico) : list (string * float) :=
  List.map (fun r => (reg_tipo r, reg_valor r)) (transacoes h).

(** Two account objects that differ at most by the dates in their
    histories. *)
Definition iguais_sem_datas (o1 o2 : Objeto) : Prop :=
  saldo o1 = saldo o2
  /\ atributos_fixos o1 = atributos_fixos o2
  /\ sem_datas (historico o1) = sem_datas (historico o2)
  /\ match o1, o2 with
     | UmaConta _, UmaConta _ => True
     | UmaContaCorrente c1, UmaContaCorrente c2 => _numero_saques c1 = _numero_saques c2
     | _, _ => False
     end.

(** Registers the transactions in order on the same object, with the
    [registrar] of either revision; returns what each call returned and the
    object at the end. *)
Section Registros.

Context {W O : Type} (reg : Transacao -> O -> W -> (bool * O) * W).

Fixpoint registrar_todas (ts : list Transacao) (o : O) (w : W) : (list bool * O) * W :=
  match ts with
  | [] => (([], o), w)
  | t :: ts' =>
      let r := reg t o w in
      let rs := registrar_todas ts' (snd (fst r)) (snd r) in
      ((fst (fst r) :: fst (fst rs), snd (fst rs)), snd rs)
  end.

End Registros.

(** * Clients and the menu functions of [sistema_bancario_poo2.py]

    Conventions.
    - A client owns its account objects: [_contas] holds them, and the list
      [contas] of [main] refers to them by owner and position.
    - A client of the list [clientes] is referred to by its position; this
      is the [RefCliente] that [Conta._cliente] holds.
    - [input] reads the lines of an endless input, and writes its prompt.
    - [float] and [datetime.datetime.strptime] are parameters: [float_]
      gives the binary64 value a text stands for, or nothing when [float]
      raises [ValueError]; [strptime_ok] tells whether the text parses as a date
      in the format day-month-year. *)

Record PessoaFisica : Type := mk_PessoaFisica {
  _endereco : str;
  _contas : list Objeto;
  _nome : str;
  _data_nascimento : str;
  _cpf : str
}.

(** [PessoaFisica.__init__], after [Cliente.__init__]. *)
Definition PessoaFisica_init (nome data_nascimento cpf endereco : str) : PessoaFisica :=
  mk_PessoaFisica endereco [] nome data_nascimento cpf.

(** [Cliente.adicionar_conta] *)
Definition adicionar_conta (self : PessoaFisica) (conta : Objeto) : PessoaFisica :=
  mk_PessoaFisica (_endereco self) (_contas self ++ [conta]) (_nome self)
    (_data_nascimento self) (_cpf self).

(** The same client with other account objects. *)
Definition set_contas (self : PessoaFisica) (cs : list Objeto) : PessoaFisica :=
  mk_PessoaFisica (_endereco self) cs (_nome self) (_data_nascimento self) (_cpf self).

(** [l[i] = x], for a position of the list. *)
Fixpoint substituir {A : Type} (l : list A) (i : nat) (x : A) : list A :=
  match l, i with
  | [], _ => []
  | _ :: l', O => x :: l'
  | y :: l', S i' => y :: substituir l' i' x
  end.

(** The prompts of [input]. *)
Inductive Pergunta : Type :=
| InformeCPFCliente      (* "Informe o CPF do cliente: " *)
| InformeValorDeposito   (* "Informe o valor do depósito: " *)
| InformeValorSaque      (* "Informe o valor do saque: " *)
| InformeCPFNumeros      (* "Informe o CPF (somente números): " *)
| InformeNome            (* "Informe o nome completo: " *)
| InformeDataNascimento  (* "Informe a data de nascimento (dd-mm-aaaa): " *)
| InformeEndereco.
    (* "Informe o endereço (logradouro, nro - bairro - cidade/sigla estado): " *)

(** What the terminal shows: the prompts, the texts of the account methods
    and the texts of the menu functions. *)
Inductive Texto : Type :=
| Entrada (p : Pergunta)
| DaConta (m : Mensagem)
| TransacaoInvalida
    (* "\n@@@ Erro: Transação inválida. Deve ser uma instância de Deposito ou Saque. @@@" *)
| ClienteSemConta
    (* "\n@@@ Cliente não possui conta. @@@" *)
| SelecionandoConta (nome : str) (numero : Z)
    (* f"\nSelecionando a primeira conta do cliente {cliente.nome} (número {cliente.contas[0].numero})." *)
| ClienteNaoEncontrado
    (* "\n@@@ Operação falhou: Cliente não encontrado! @@@" *)
| ValorInvalido
    (* "\n@@@ Operação falhou: Valor inválido. Por favor, digite um número. @@@" *)
| DepositoRealizado
    (* "\n=== Depósito realizado com sucesso! ===" *)
| SaqueRealizado
    (* "\n=== Saque realizado com sucesso! ===" *)
| CPFInvalido
    (* "\n@@@ Operação falhou: CPF inválido! Verifique o formato e os dígitos. @@@" *)
| ClienteJaExiste
    (* "\n@@@ Operação falhou: Já existe cliente com este CPF! @@@" *)
| DataInvalida
    (* "\n@@@ Operação falhou: Formato de data de nascimento inválido. Use dd-mm-aaaa. @@@" *)
| ClienteCriado
    (* "\n=== Cliente criado com sucesso! ===" *)
| ClienteNaoEncontradoCrieUsuario
    (* "\n@@@ Operação falhou: Cliente não encontrado! Favor criar o usuário primeiro. @@@" *)
| ContaCriada (numero : Z) (nome : str).
    (* f"\n=== Conta {numero_conta} criada com sucesso para {cliente.nome}! ===" *)

(** [entrada k] is the [k]-th line typed; [lidas] counts the lines read so
    far; [tela] is what was written so far; the clock is that of [Mundo]. *)
Record Terminal : Type := mk_Terminal {
  entrada : nat -> str;
  lidas : nat;
  tela : list Texto;
  relogio_t : nat -> datetime;
  tique_t : nat
}.

(** A menu function returns or raises, and leaves a terminal. *)
Definition CLI (A : Type) : Type := Terminal -> Resultado A * Terminal.

Definition cli_ret {A : Type} (a : A) : CLI A := fun t => (Retorna a, t).

Definition cli_bind {A B : Type} (m : CLI A) (k : A -> CLI B) : CLI B :=
  fun t =>
    match m t with
    | (Retorna a, t1) => k a t1
    | (Levanta e, t1) => (Levanta e, t1)
    end.

Declare Scope cli_scope.
Delimit Scope cli_scope with cli.
Notation "x <- m ;; k" := (cli_bind m (fun x => k))
  (at level 61, m at next level, right associativity) : cli_scope.
Notation "m ;;; k" := (cli_bind m (fun _ => k))
  (at level 61, right associativity) : cli_scope.

(** [input(p)] *)
Definition input (p : Pergunta) : CLI str :=
  fun t =>
    (Retorna (entrada t (lidas t)),
     mk_Terminal (entrada t) (S (lidas t)) (tela t ++ [Entrada p]) (relogio_t t) (tique_t t)).

(** [print(x)] in a menu function. *)
Definition escrever (x : Texto) : CLI unit :=
  fun t =>
    (Retorna tt,
     mk_Terminal (entrada t) (lidas t) (tela t ++ [x]) (relogio_t t) (tique_t t)).

(** An expression that may raise. *)
Definition avaliar {A : Type} (r : Resultado A) : CLI A := fun t => (r, t).

(** A method of the account classes run at the terminal: it reads the
    terminal's clock, and what it prints goes to the terminal. *)
Definition elevar {A : Type} (m : IO A) : CLI A :=
  fun t =>
    let r := m (mk_Mundo (relogio_t t) (tique_t t) []) in
    (Retorna (fst r),
     mk_Terminal (entrada t) (lidas t) (tela t ++ List.map DaConta (stdout (snd r)))
       (relogio_t t) (tique (snd r))).

(** The argument [transacao] of [Cliente.realizar_transacao]: an instance
    of [Transacao], or any other object. *)
Inductive Argumento : Type :=
| UmaTransacao (t : Transacao)
| OutroObjeto.

Module Menu.

Local Open Scope cli_scope.

(** [Cliente.realizar_transacao] *)
Definition realizar_transacao (conta : Objeto) (transacao : Argumento) : CLI (bool * Objeto) :=
  match transacao with
  | OutroObjeto => escrever TransacaoInvalida ;;; cli_ret (false, conta)
  | UmaTransacao t => elevar (registrar t conta)
  end.

(** [filtrar_cliente]: the clients whose [cpf] is the text given, each with
    its position, and the first of them, if any. *)
Definition filtrar_cliente (cpf : str) (clientes : list PessoaFisica)
    : option (RefCliente * PessoaFisica) :=
  let clientes_filtrados :=
    List.filter (fun ic => str_eqb (_cpf (snd ic)) cpf)
      (List.combine (seq 0 (List.length clientes)) clientes) in
  match clientes_filtrados with
  | [] => None
  | ic :: _ => Some ic
  end.

(** [recuperar_conta_cliente] *)
Definition recuperar_conta_cliente (cliente : PessoaFisica) : CLI (option Objeto) :=
  match _contas cliente with
  | [] => escrever ClienteSemConta ;;; cli_ret None
  | conta :: _ =>
      escrever (SelecionandoConta (_nome cliente) (_numero (conta_de conta))) ;;;
      cli_ret (Some conta)
  end.

Section Parametros.

Variable float_ : str -> option float.
Variable strptime_ok : str -> bool.

(** The body shared by [depositar(clientes)] and [sacar(clientes)], which
    differ by the prompt for the amount, the class of the transaction and
    the text of success. It returns the list [clientes] as the call leaves
    it. *)
Definition movimentar (pergunta : Pergunta) (c : Classe) (sucesso : Texto)
    (clientes : list PessoaFisica) : CLI (list PessoaFisica) :=
  cpf <- input InformeCPFCliente ;;
  match filtrar_cliente cpf clientes with
  | None => escrever ClienteNaoEncontrado ;;; cli_ret clientes
  | Some (i, cliente) =>
      valor_str <- input pergunta ;;
      match float_ valor_str with
      | None => escrever ValorInvalido ;;; cli_ret clientes
      | Some v =>
          transacao <- elevar (Transacao_init c v) ;;
          conta <- recuperar_conta_cliente cliente ;;
          match conta with
          | None => cli_ret clientes
          | Some conta =>
              r <- realizar_transacao conta (UmaTransacao transacao) ;;
              let clientes :=
                substituir clientes i
                  (set_contas cliente (substituir (_contas cliente) 0 (snd r))) in
              if fst r then escrever sucesso ;;; cli_ret clientes
              else cli_ret clientes
          end
      end
  end.

(** [depositar(clientes)] *)
Definition depositar : list PessoaFisica -> CLI (list PessoaFisica) :=
  movimentar InformeValorDeposito Deposito DepositoRealizado.

(** [sacar(clientes)] *)
Definition sacar : list PessoaFisica -> CLI (list PessoaFisica) :=
  movimentar InformeValorSaque Saque SaqueRealizado.

(** [criar_usuario(clientes)]; it returns the list [clientes] as the call
    leaves it. *)
Definition criar_usuario (clientes : list PessoaFisica) : CLI (list PessoaFisica) :=
  cpf <- input InformeCPFNumeros ;;
  valido <- avaliar (validar_cpf cpf) ;;
  if negb valido then escrever CPFInvalido ;;; cli_ret clientes else
  match filtrar_cliente cpf clientes with
  | Some _ => escrever ClienteJaExiste ;;; cli_ret clientes
  | None =>
      nome <- input InformeNome ;;
      data_nascimento <- input InformeDataNascimento ;;
      endereco <- input InformeEndereco ;;
      if negb (strptime_ok data_nascimento) then
        escrever DataInvalida ;;; cli_ret clientes
      else
        let cliente := PessoaFisica_init nome data_nascimento cpf endereco in
        escrever ClienteCriado ;;;
        cli_ret (clientes ++ [cliente])
  end.

(** [criar_conta(numero_conta, clientes, contas)]; it returns the lists
    [clientes] and [contas] as the call leaves them. *)
Definition criar_conta (numero_conta : Z) (clientes : list PessoaFisica)
    (contas : list (RefCliente * nat))
    : CLI (list PessoaFisica * list (RefCliente * nat)) :=
  cpf <- input InformeCPFCliente ;;
  match filtrar_cliente cpf clientes with
  | None => escrever ClienteNaoEncontradoCrieUsuario ;;; cli_ret (clientes, contas)
  | Some (i, cliente) =>
      let conta := UmaContaCorrente (ContaCorrente_nova_conta i numero_conta) in
      let contas := contas ++ [(i, List.length (_contas cliente))] in
      let clientes := substituir clientes i (adicionar_conta cliente conta) in
      escrever (ContaCriada numero_conta (_nome cliente)) ;;;
      cli_ret (clientes, contas)
  end.

End Parametros.

End Menu.

(** ** Further objects of the examples *)

(** A world of the first revision with the clock of [mundo_exemplo]. *)
Definition mundo1_exemplo : Rev1.Mundo :=
  Rev1.mk_Mundo (relogio mundo_exemplo) 0 [].

(** A deposit and two withdrawals, built at the first three readings of the
    clock of [mundo_exemplo]. *)
Definition transacoes_exemplo : list Transacao :=
  [mk_Transacao Deposito 100 (relogio mundo_exemplo 0);
   mk_Transacao Saque 30 (relogio mundo_exemplo 1);
   mk_Transacao Saque 200 (relogio mundo_exemplo 2)].

(** ** The lists [clientes] and [contas] taken together *)

(** Every account object held by a client names that client as its owner,
    and the list [contas] refers to each account of each client, once. *)
Definition banco_consistente (clientes : list PessoaFisica)
    (contas : list (RefCliente * nat)) : Prop :=
  (forall i c conta,
     nth_error clientes i = Some c -> In conta (_contas c) ->
     _cliente (conta_de conta) = i)
  /\ (forall i k,
        In (i, k) contas <->
        exists c, nth_error clientes i = Some c /\ (k < List.length (_contas c))%nat)
  /\ NoDup contas.

(** ** Clients and terminals of the examples *)

(** A client registered under the digits of the reference CPF, without
    accounts, and the same client holding [conta_exemplo]. *)
Definition cliente_sem_conta : PessoaFisica :=
  PessoaFisica_init (texto "Maria") (texto "01-02-1990") (texto "52998224725") (texto "Rua A, 1").

Definition cliente_exemplo : PessoaFisica :=
  adicionar_conta cliente_sem_conta (UmaContaCorrente conta_exemplo).

(** A terminal where the lines of [linhas] are typed, then empty lines. *)
Definition terminal_de (linhas : list string) : Terminal :=
  mk_Terminal (fun k => texto (nth k linhas EmptyString)) 0 [] (relogio mundo_exemplo) 0.

(** A date check that accepts one text, and a reading of amounts that
    reads one text. *)
Definition strptime_exemplo (s : str) : bool := str_eqb s (texto "01-02-1990").

Definition float_exemplo (s : str) : option float :=
  if str_eqb s (texto "100") then Some 100 else None.

(** * Properties *)

(** ** Facts about the binary64 format *)

Lemma digits2_pos_bounds (m : positive) :
  (2 ^ (Zpos (digits2_pos m) - 1) <= Zpos m < 2 ^ Zpos (digits2_pos m))%Z.
Proof.
  induction m as [m IH | m IH |]; cbn [digits2_pos].
  - rewrite Pos2Z.inj_succ.
    replace (Z.succ (Zpos (digits2_pos m)) - 1)%Z with (Z.succ (Zpos (digits2_pos m) - 1))%Z by lia.
    rewrite !Z.pow_succ_r by lia. lia.
  - rewrite Pos2Z.inj_succ.
    replace (Z.succ (Zpos (digits2_pos m)) - 1)%Z with (Z.succ (Zpos (digits2_pos m) - 1))%Z by lia.
    rewrite !Z.pow_succ_r by lia. lia.
  - cbn. lia.
Qed.


(** What validity says of the mantissa of a finite binary64 number. *)
Lemma bounded_digits (m : positive) (e : Z) :
  bounded prec emax m e = true ->
  (Zpos (digits2_pos m) <= 53)%Z
  /\ ((-1074 < e)%Z -> Zpos (digits2_pos m) = 53%Z).
Proof.
  unfold bounded, canonical_mantissa, fexp, SpecFloat.emin, prec, emax.
  intros H. apply andb_prop in H. destruct H as [H _]. apply Z.eqb_eq in H.
  lia.
Qed.

(** Of two valid positive finite numbers, the one with the larger exponent,
    or with the same exponent and the larger mantissa, is the larger. *)
Lemma ordem_canonica (m1 m2 : positive) (e1 e2 : Z) :
  bounded prec emax m1 e1 = true ->
  bounded prec emax m2 e2 = true ->
  (e2 < e1)%Z ->
  (Zpos m2 < Zpos m1 * 2 ^ (e1 - e2))%Z.
Proof.
  intros H1 H2 He.
  destruct (bounded_digits m1 e1 H1) as [_ Hn1].
  destruct (bounded_digits m2 e2 H2) as [Hd2 _].
  assert (Hmin : (-1074 <= e2)%Z).
  { unfold bounded, canonical_mantissa, fexp, SpecFloat.emin, prec, emax in H2.
    apply andb_prop in H2. destruct H2 as [H2 _]. apply Z.eqb_eq in H2. lia. }
  specialize (Hn1 ltac:(lia)).
  pose proof (digits2_pos_bounds m1) as B1. pose proof (digits2_pos_bounds m2) as B2.
  rewrite Hn1 in B1.
  assert (Zpos m2 < 2 ^ 53)%Z.
  { apply Z.lt_le_trans with (2 ^ Zpos (digits2_pos m2))%Z; [lia |].
    apply Z.pow_le_mono_r; lia. }
  assert (2 ^ 1 <= 2 ^ (e1 - e2))%Z by (apply Z.pow_le_mono_r; lia).
  change (2 ^ (53 - 1))%Z with 4503599627370496%Z in B1.
  change (2 ^ 53)%Z with 9007199254740992%Z in *.
  change (2 ^ 1)%Z with 2%Z in *.
  nia.
Qed.







(** ** The exact value of a binary64 number *)

Lemma SF2Q_positivo (m : positive) (e : Z) : (0 < SF2Q (S754_finite false m e))%Q.
Proof.
  cbn [SF2Q]. apply Qmult_lt_0_compat.
  - unfold Qlt. cbn. lia.
  - apply Qpower_0_lt. reflexivity.
Qed.

(** A number that is above zero and does not exceed a finite limit has an
    exact value between zero and that of the limit. *)
Lemma SFltb_exato (l v : spec_float) :
  valid_binary l = true -> valid_binary v = true ->
  v <> S754_nan ->
  SFleb v SFzero = false ->
  SFltb l v = false ->
  SFltb l (S754_infinity false) = true ->
  (0 < SF2Q v /\ SF2Q v <= SF2Q l)%Q.
Proof.
  intros Vl Vv Hnan Hv Hl Hfin.
  destruct v as [sv | sv | | sv mv ev]; try discriminate Hv; [| contradiction |].
  - destruct sv; [discriminate Hv |].
    rewrite Hfin in Hl. discriminate Hl.
  - destruct sv; [discriminate Hv |].
    split; [apply SF2Q_positivo |].
    destruct l as [sl | sl | | sl ml el].
    + discriminate Hl.
    + destruct sl; [discriminate Hl | discriminate Hfin].
    + discriminate Hfin.
    + destruct sl; [discriminate Hl |].
      unfold SFltb, SFcompare in Hl. cbn [valid_binary] in Vl, Vv. cbn [SF2Q].
      assert (H2 : forall z, (0 < Qpower 2 z)%Q) by (intros z; apply Qpower_0_lt; reflexivity).
      destruct (Z.compare_spec el ev) as [He | He | He]; try discriminate Hl.
      * subst ev. apply Qmult_le_compat_r; [| apply Qlt_le_weak, H2].
        rewrite <- Zle_Qle.
        change (Pos.compare_cont Eq ml mv) with (Pos.compare ml mv) in Hl.
        destruct (Pos.compare_spec ml mv); try discriminate Hl; lia.
      * pose proof (ordem_canonica ml mv el ev Vl Vv He) as Ho.
        replace el with (ev + (el - ev))%Z at 1 by lia.
        rewrite Qpower_plus by discriminate.
        rewrite <- (Zpower_Qpower 2 (el - ev)) by lia.
        rewrite (Qmult_comm (2 ^ ev)%Q), Qmult_assoc.
        apply Qmult_le_compat_r; [| apply Qlt_le_weak, H2].
        rewrite <- inject_Z_mult, <- Zle_Qle. lia.
Qed.

Lemma float_exato_limitado (l v : float) :
  is_nan v = false ->
  (v <=? 0)%float = false ->
  (l <? v)%float = false ->
  (l <? infinity)%float = true ->
  (0 < exato v /\ exato v <= exato l)%Q.
Proof.
  intros Hn. rewrite leb_spec, !ltb_spec.
  change (Prim2SF 0) with SFzero. change (Prim2SF infinity) with (S754_infinity false).
  apply SFltb_exato; try apply Prim2SF_valid.
  intros H. unfold Prim2SF in H. rewrite Hn in H.
  destruct (is_zero v); [discriminate H |].
  destruct (is_infinity v); [discriminate H |].
  destruct (Z.frexp v) as [r ex].
  destruct (shr_fexp _ _ _ _ _) as [s e']. destruct (shr_m s); discriminate H.
Qed.

(** ** Comparisons on amounts *)

(** Comparing two binary64 numbers one way round gives the opposite of
    comparing them the other way round. *)
Lemma SFcompare_antisym (x y : spec_float) :
  SFcompare y x = option_map CompOpp (SFcompare x y).
Proof.
  destruct x as [sx | sx | | sx mx ex], y as [sy | sy | | sy my ey];
    try reflexivity;
    try (destruct sx; reflexivity); try (destruct sy; reflexivity);
    try (destruct sx, sy; reflexivity).
  cbn [SFcompare option_map]. f_equal.
  destruct sx, sy; try reflexivity.
  - rewrite (Z.compare_antisym ey ex).
    destruct (ey ?= ex)%Z eqn:He; cbn [CompOpp]; try reflexivity.
    change (Pos.compare_cont Eq my mx) with (Pos.compare my mx).
    change (Pos.compare_cont Eq mx my) with (Pos.compare mx my).
    rewrite (Pos.compare_antisym mx my).
    destruct (mx ?= my)%positive; reflexivity.
  - rewrite (Z.compare_antisym ey ex).
    destruct (ey ?= ex)%Z eqn:He; cbn [CompOpp]; try reflexivity.
    change (Pos.compare_cont Eq my mx) with (Pos.compare my mx).
    change (Pos.compare_cont Eq mx my) with (Pos.compare mx my).
    rewrite (Pos.compare_antisym mx my).
    destruct (mx ?= my)%positive; reflexivity.
Qed.

(** [x <= y] excludes [x > y]. *)
Lemma float_leb_ltb (x y : float) : (x <=? y) = true -> (y <? x) = false.
Proof.
  rewrite leb_spec, ltb_spec. unfold SFleb, SFltb.
  rewrite (SFcompare_antisym (Prim2SF x) (Prim2SF y)).
  destruct (SFcompare (Prim2SF x) (Prim2SF y)) as [[| |] |]; cbn; congruence.
Qed.

(** [x > y] excludes [x <= y]. *)
Lemma float_ltb_leb (x y : float) : (y <? x) = true -> (x <=? y) = false.
Proof.
  intros H. destruct (x <=? y) eqn:Hl; [| reflexivity].
  apply float_leb_ltb in Hl. congruence.
Qed.

(** ** [Conta.depositar] and [Conta.sacar], case by case *)

Lemma Conta_depositar_invalido (self : Conta) (v : float) (w : Mundo) :
  (v <=? 0) = true ->
  Conta_depositar self v w = (false, self, imprimir w ErroDepositoValorInvalido).
Proof.
  intros Hv. unfold Conta_depositar. rewrite Hv. reflexivity.
Qed.

Lemma Conta_depositar_aceito (self : Conta) (v : float) (w : Mundo) :
  (v <=? 0) = false ->
  Conta_depositar self v w =
    (true, movimentada self (_saldo self + v) (registro_de Deposito v w), avancar w).
Proof.
  intros Hv. unfold Conta_depositar. rewrite Hv. reflexivity.
Qed.

Lemma Conta_sacar_invalido (self : Conta) (v : float) (w : Mundo) :
  (v <=? 0) = true ->
  Conta_sacar self v w = (false, self, imprimir w ErroSaqueValorInvalido).
Proof.
  intros Hv. unfold Conta_sacar. rewrite Hv. reflexivity.
Qed.

Lemma Conta_sacar_sem_saldo (self : Conta) (v : float) (w : Mundo) :
  (v <=? 0) = false -> (_saldo self <? v) = true ->
  Conta_sacar self v w = (false, self, imprimir w ErroSaqueSaldoInsuficiente).
Proof.
  intros Hv Hs. unfold Conta_sacar. rewrite Hv, Hs. reflexivity.
Qed.

Lemma Conta_sacar_aceito (self : Conta) (v : float) (w : Mundo) :
  (v <=? 0) = false -> (_saldo self <? v) = false ->
  Conta_sacar self v w =
    (true, movimentada self (_saldo self - v) (registro_de Saque v w), avancar w).
Proof.
  intros Hv Hs. unfold Conta_sacar. rewrite Hv, Hs. reflexivity.
Qed.

(** A call that returns [False] leaves the account as it was. *)
Lemma Conta_sacar_recusado (self : Conta) (v : float) (w : Mundo) :
  fst (fst (Conta_sacar self v w)) = false ->
  snd (fst (Conta_sacar self v w)) = self.
Proof.
  destruct (v <=? 0) eqn:Hv.
  - rewrite Conta_sacar_invalido by assumption. reflexivity.
  - destruct (_saldo self <? v) eqn:Hs.
    + rewrite Conta_sacar_sem_saldo by assumption. reflexivity.
    + rewrite Conta_sacar_aceito by assumption. discriminate.
Qed.

(** ** [depositar] *)

(** C2, as the code has it. On every account object and for every amount,
    [depositar] returns [False] exactly when the amount is [<= 0]; it then
    prints the invalid-amount text of deposits ([InvalidAmount]) and leaves
    the object, so its balance and history, as they were. For any other
    amount it returns [True], prints nothing, appends exactly one
    [Deposito] entry to the history, and the balance becomes the binary64
    sum of the balance and the amount. *)
Theorem depositar_spec (o : Objeto) (v : float) (w : Mundo) :
  (fst (fst (depositar o v w)) = false <-> (v <=? 0) = true)
  /\ ((v <=? 0) = true ->
      depositar o v w = (false, o, imprimir w ErroDepositoValorInvalido)
      /\ erro_de ErroDepositoValorInvalido = InvalidAmount)
  /\ ((v <=? 0) = false ->
      fst (fst (depositar o v w)) = true
      /\ saldo (snd (fst (depositar o v w))) = saldo o + v
      /\ transacoes (historico (snd (fst (depositar o v w)))) =
           transacoes (historico o) ++ [mk_Registro "Deposito" v (strftime (agora w))]
      /\ stdout (snd (depositar o v w)) = stdout w).
Proof.
  destruct (v <=? 0) eqn:Hv.
  - destruct o as [c | cc]; unfold depositar, ContaCorrente_depositar, bind;
      rewrite Conta_depositar_invalido by assumption; cbn.
    + split; [split; auto |]. split; [auto | discriminate].
    + destruct cc; cbn.
      split; [split; auto |]. split; [auto | discriminate].
  - destruct o as [c | cc]; unfold depositar, ContaCorrente_depositar, bind;
      rewrite Conta_depositar_aceito by assumption; cbn;
      (split; [split; discriminate |
        split; [discriminate | intros _; repeat split]]).
Qed.

(** ** [Conta.sacar] *)

(** C3, as the code has it. [Conta.sacar] tests the amount first and the
    balance second. An amount [<= 0] is refused with the invalid-amount
    text of withdrawals ([InvalidAmount]), whatever the balance; any other
    amount that is above the balance is refused with the
    insufficient-balance text ([InsufficientFunds]); any other amount is
    accepted: one [Saque] entry is appended and the balance becomes the
    binary64 difference of the balance and the amount. A refused call
    leaves the account as it was. *)
Theorem Conta_sacar_spec (self : Conta) (v : float) (w : Mundo) :
  ((v <=? 0) = true ->
     Conta_sacar self v w = (false, self, imprimir w ErroSaqueValorInvalido)
     /\ erro_de ErroSaqueValorInvalido = InvalidAmount)
  /\ ((v <=? 0) = false -> (_saldo self <? v) = true ->
     Conta_sacar self v w = (false, self, imprimir w ErroSaqueSaldoInsuficiente)
     /\ erro_de ErroSaqueSaldoInsuficiente = InsufficientFunds)
  /\ ((v <=? 0) = false -> (_saldo self <? v) = false ->
     fst (fst (Conta_sacar self v w)) = true
     /\ _saldo (snd (fst (Conta_sacar self v w))) = _saldo self - v
     /\ transacoes (_historico (snd (fst (Conta_sacar self v w)))) =
          transacoes (_historico self) ++ [mk_Registro "Saque" v (strftime (agora w))]
     /\ stdout (snd (Conta_sacar self v w)) = stdout w).
Proof.
  split; [| split].
  - intros Hv. split; [apply Conta_sacar_invalido; exact Hv | reflexivity].
  - intros Hv Hs.
    split; [apply Conta_sacar_sem_saldo; assumption | reflexivity].
  - intros Hv Hs.
    rewrite Conta_sacar_aceito by assumption. cbn. repeat split.
Qed.

(** ** [ContaCorrente.sacar] *)

Lemma ContaCorrente_sacar_excede_limite (self : ContaCorrente) (v : float) (w : Mundo) :
  (_limite self <? v) = true ->
  ContaCorrente_sacar self v w = (false, self, imprimir w ErroSaqueExcedeLimite).
Proof.
  intros Hl. unfold ContaCorrente_sacar. rewrite Hl. reflexivity.
Qed.

Lemma ContaCorrente_sacar_maximo_saques (self : ContaCorrente) (v : float) (w : Mundo) :
  (_limite self <? v) = false ->
  (_numero_saques self >= _limite_saques self)%Z ->
  ContaCorrente_sacar self v w = (false, self, imprimir w ErroSaqueMaximoSaques).
Proof.
  intros Hl Hn. unfold ContaCorrente_sacar. rewrite Hl.
  replace (_numero_saques self >=? _limite_saques self)%Z with true
    by (symmetry; apply Z.geb_le; lia).
  reflexivity.
Qed.

(** Past the two guards the call is the base call on the same attributes,
    followed by the increment when the base call returned [True]. *)
Lemma ContaCorrente_sacar_delega (self : ContaCorrente) (v : float) (w : Mundo) :
  (_limite self <? v) = false ->
  (_numero_saques self < _limite_saques self)%Z ->
  ContaCorrente_sacar self v w =
    (let r := Conta_sacar (da_conta self) v w in
     if fst (fst r)
     then (true,
           mk_ContaCorrente (snd (fst r)) (_limite self) (_limite_saques self)
             (_numero_saques self + 1),
           snd r)
     else (false, self, snd r)).
Proof.
  intros Hl Hn. unfold ContaCorrente_sacar. rewrite Hl.
  replace (_numero_saques self >=? _limite_saques self)%Z with false
    by (symmetry; rewrite Z.geb_leb; apply Z.leb_gt; lia).
  unfold bind. cbv zeta.
  pose proof (Conta_sacar_recusado (da_conta self) v w) as Hrec.
  destruct (Conta_sacar (da_conta self) v w) as [[ok c'] w']. cbn in *.
  destruct ok.
  - reflexivity.
  - rewrite Hrec by reflexivity. destruct self; reflexivity.
Qed.

(** C4. [ContaCorrente.sacar] tests, in this order: the amount against
    [_limite] (refusal with the limit text, [LimitExceeded], whatever the
    balance and the count of withdrawals: so for 500.01 against a limit of
    500), then [_numero_saques] against [_limite_saques] (refusal with the
    maximum-withdrawals text, [WithdrawalCapReached]), and otherwise runs
    [Conta.sacar]. When that returns [True] the count of withdrawals grows
    by one; when it returns [False], what it printed is all that is
    printed, and the object, count included, stays as it was. *)
Theorem ContaCorrente_sacar_spec (self : ContaCorrente) (v : float) (w : Mundo) :
  ((_limite self <? v) = true ->
     ContaCorrente_sacar self v w = (false, self, imprimir w ErroSaqueExcedeLimite)
     /\ erro_de ErroSaqueExcedeLimite = LimitExceeded)
  /\ (_limite self = 500 ->
     ContaCorrente_sacar self (500.01) w = (false, self, imprimir w ErroSaqueExcedeLimite))
  /\ ((_limite self <? v) = false -> (_numero_saques self >= _limite_saques self)%Z ->
     ContaCorrente_sacar self v w = (false, self, imprimir w ErroSaqueMaximoSaques)
     /\ erro_de ErroSaqueMaximoSaques = WithdrawalCapReached)
  /\ ((_limite self <? v) = false -> ~ (_numero_saques self >= _limite_saques self)%Z ->
     (fst (fst (Conta_sacar (da_conta self) v w)) = true ->
        ContaCorrente_sacar self v w =
          (true,
           mk_ContaCorrente (snd (fst (Conta_sacar (da_conta self) v w)))
             (_limite self) (_limite_saques self) (_numero_saques self + 1),
           snd (Conta_sacar (da_conta self) v w)))
     /\ (fst (fst (Conta_sacar (da_conta self) v w)) = false ->
        ContaCorrente_sacar self v w =
          (false, self, snd (Conta_sacar (da_conta self) v w)))).
Proof.
  split; [| split; [| split]].
  - intros Hl. split; [apply ContaCorrente_sacar_excede_limite; exact Hl | reflexivity].
  - intros Hl. apply ContaCorrente_sacar_excede_limite. rewrite Hl. reflexivity.
  - intros Hl Hn.
    split; [apply ContaCorrente_sacar_maximo_saques; assumption | reflexivity].
  - intros Hl Hn.
    rewrite ContaCorrente_sacar_delega by (assumption || lia). cbv zeta.
    split; intros Hr; rewrite Hr; reflexivity.
Qed.

(** C10. On a [ContaCorrente] whose count of withdrawals has reached
    [_limite_saques], an amount [<= 0] that is within [_limite] is refused
    with the maximum-withdrawals text ([WithdrawalCapReached]) and not with
    the invalid-amount text that [Conta.sacar] prints for the same
    amount. *)
Theorem ContaCorrente_sacar_maximo_antes_de_valor (self : ContaCorrente) (v : float) (w : Mundo) :
  (_numero_saques self >= _limite_saques self)%Z ->
  (v <=? 0) = true ->
  (v <=? _limite self) = true ->
  ContaCorrente_sacar self v w = (false, self, imprimir w ErroSaqueMaximoSaques)
  /\ erro_de ErroSaqueMaximoSaques = WithdrawalCapReached
  /\ stdout (snd (ContaCorrente_sacar self v w)) <> stdout w ++ [ErroSaqueValorInvalido]
  /\ Conta_sacar (da_conta self) v w =
       (false, da_conta self, imprimir w ErroSaqueValorInvalido).
Proof.
  intros Hn Hv Hl. apply float_leb_ltb in Hl.
  rewrite ContaCorrente_sacar_maximo_saques by assumption.
  repeat split.
  - cbn. intros H. apply app_inv_head in H. discriminate.
  - apply Conta_sacar_invalido. exact Hv.
Qed.

(** ** One call *)

Lemma ContaCorrente_sacar_casos (self : ContaCorrente) (v : float) (w : Mundo) :
  (exists m, ContaCorrente_sacar self v w = (false, self, imprimir w m))
  \/ ((v <=? 0) = false /\ (_saldo (da_conta self) <? v) = false
      /\ (_limite self <? v) = false
      /\ (_numero_saques self < _limite_saques self)%Z
      /\ ContaCorrente_sacar self v w =
           (true,
            mk_ContaCorrente
              (movimentada (da_conta self) (_saldo (da_conta self) - v) (registro_de Saque v w))
              (_limite self) (_limite_saques self) (_numero_saques self + 1),
            avancar w)).
Proof.
  destruct (_limite self <? v) eqn:Hl.
  { left. eexists. apply ContaCorrente_sacar_excede_limite. exact Hl. }
  destruct (Z_lt_ge_dec (_numero_saques self) (_limite_saques self)) as [Hn | Hn].
  2:{ left. eexists. apply ContaCorrente_sacar_maximo_saques; assumption. }
  rewrite ContaCorrente_sacar_delega by assumption. cbv zeta.
  destruct (v <=? 0) eqn:Hv.
  { left. rewrite Conta_sacar_invalido by assumption. eexists. reflexivity. }
  destruct (_saldo (da_conta self) <? v) eqn:Hs.
  { left. rewrite Conta_sacar_sem_saldo by assumption. eexists. reflexivity. }
  right. rewrite Conta_sacar_aceito by assumption. cbn. auto.
Qed.

Lemma ContaCorrente_depositar_casos (self : ContaCorrente) (v : float) (w : Mundo) :
  ((v <=? 0) = true /\ ContaCorrente_depositar self v w =
               (false, self, imprimir w ErroDepositoValorInvalido))
  \/ ((v <=? 0) = false /\ ContaCorrente_depositar self v w =
        (true,
         mk_ContaCorrente
           (movimentada (da_conta self) (_saldo (da_conta self) + v) (registro_de Deposito v w))
           (_limite self) (_limite_saques self) (_numero_saques self),
         avancar w)).
Proof.
  unfold ContaCorrente_depositar, bind.
  destruct (v <=? 0) eqn:Hv.
  - left. rewrite Conta_depositar_invalido by assumption.
    destruct self; auto.
  - right. rewrite Conta_depositar_aceito by assumption. auto.
Qed.

Lemma chamar_cc_efeito (cc : ContaCorrente) (c : Chamada) (w : Mundo) :
  efeito_cc cc c (fst (fst (chamar_cc cc c w))) (snd (fst (chamar_cc cc c w))).
Proof.
  destruct c as [v | v]; cbn [chamar_cc].
  - destruct (ContaCorrente_depositar_casos cc v w) as [[_ H] | [_ H]];
      rewrite H; cbn; auto.
  - destruct (ContaCorrente_sacar_casos cc v w) as [[m H] | (_ & _ & Hl & Hn & H)];
      rewrite H; cbn; auto.
Qed.

Ltac fechar_efeito :=
  repeat match goal with
         | |- _ /\ _ => split
         | |- exists _, _ => eexists
         end; solve [assumption | reflexivity].

Lemma chamar_efeito (o : Objeto) (c : Chamada) (w : Mundo) :
  efeito o c (fst (fst (chamar o c w))) (snd (fst (chamar o c w))).
Proof.
  destruct c as [v | v]; destruct o as [self | self];
    cbn [chamar depositar sacar]; unfold bind.
  - destruct (v <=? 0) eqn:Hv.
    + rewrite Conta_depositar_invalido by assumption. reflexivity.
    + rewrite Conta_depositar_aceito by assumption. cbn.
      fechar_efeito.
  - destruct (ContaCorrente_depositar_casos self v w) as [[_ H] | [Hv H]];
      rewrite H; cbn; [reflexivity |].
    fechar_efeito.
  - destruct (v <=? 0) eqn:Hv.
    + rewrite Conta_sacar_invalido by assumption. reflexivity.
    + destruct (_saldo self <? v) eqn:Hs.
      * rewrite Conta_sacar_sem_saldo by assumption. reflexivity.
      * rewrite Conta_sacar_aceito by assumption. cbn.
        fechar_efeito.
  - destruct (ContaCorrente_sacar_casos self v w) as [[m H] | (Hv & Hs & _ & _ & H)];
      rewrite H; cbn; [reflexivity |].
    fechar_efeito.
Qed.

(** ** Sequences of calls *)

Lemma executar_cons {O : Type} (ch : O -> Chamada -> IO (bool * O))
    (o : O) (c : Chamada) (cs : list Chamada) (w : Mundo) :
  executar ch o (c :: cs) w =
    (fst (fst (ch o c w))
       :: fst (fst (executar ch (snd (fst (ch o c w))) cs (snd (ch o c w)))),
     snd (fst (executar ch (snd (fst (ch o c w))) cs (snd (ch o c w)))),
     snd (executar ch (snd (fst (ch o c w))) cs (snd (ch o c w)))).
Proof.
  cbn [executar]. unfold bind, ret.
  destruct (ch o c w) as [[ok o'] w']. cbn [fst snd].
  destruct (executar ch o' cs w') as [[rs o''] w'']. reflexivity.
Qed.

Lemma executar_app {O : Type} (ch : O -> Chamada -> IO (bool * O))
    (cs1 cs2 : list Chamada) (o : O) (w : Mundo) :
  executar ch o (cs1 ++ cs2) w =
    (fst (fst (executar ch o cs1 w))
       ++ fst (fst (executar ch (snd (fst (executar ch o cs1 w))) cs2
                      (snd (executar ch o cs1 w)))),
     snd (fst (executar ch (snd (fst (executar ch o cs1 w))) cs2
                 (snd (executar ch o cs1 w)))),
     snd (executar ch (snd (fst (executar ch o cs1 w))) cs2
            (snd (executar ch o cs1 w)))).
Proof.
  revert o w. induction cs1 as [| c cs1 IH]; intros o w.
  - cbn. destruct (executar ch o cs2 w) as [[rs o'] w']. reflexivity.
  - rewrite <- app_comm_cons. rewrite !executar_cons. rewrite IH. reflexivity.
Qed.





(** ** The count of withdrawals of a [ContaCorrente] *)

(** After any sequence of calls the limits are those given at creation,
    the count of withdrawals is the count held before plus the number of
    withdrawals that returned [True], and a count within the cap stays
    within it. *)
Lemma executar_numero_saques (cs : list Chamada) (cc : ContaCorrente) (w : Mundo) :
  _limite (snd (fst (executar chamar_cc cc cs w))) = _limite cc
  /\ _limite_saques (snd (fst (executar chamar_cc cc cs w))) = _limite_saques cc
  /\ _numero_saques (snd (fst (executar chamar_cc cc cs w))) =
       (_numero_saques cc + saques_realizados cs (fst (fst (executar chamar_cc cc cs w))))%Z
  /\ ((_numero_saques cc <= _limite_saques cc)%Z ->
       (_numero_saques (snd (fst (executar chamar_cc cc cs w))) <= _limite_saques cc)%Z)
  /\ (0 <= saques_realizados cs (fst (fst (executar chamar_cc cc cs w))))%Z.
Proof.
  revert cc w. induction cs as [| c cs IH]; intros cc w.
  - cbn. repeat split; lia.
  - rewrite executar_cons. cbn [fst snd].
    pose proof (chamar_cc_efeito cc c w) as He.
    destruct (chamar_cc cc c w) as [[ok cc'] w']. cbn [fst snd] in *.
    destruct (IH cc' w') as (IHl & IHls & IHn & IHle & IHp). clear IH.
    destruct (executar chamar_cc cc' cs w') as [[rs cc''] w'']. cbn [fst snd] in *.
    destruct c as [v | v], ok; cbn [efeito_cc saques_realizados] in *.
    + destruct He as (Hl & Hls & Hn). rewrite Hl in IHl. rewrite Hls in *. rewrite Hn in *.
      auto.
    + subst cc'. auto.
    + destruct He as (_ & Hl & Hls & Hlt & Hn). rewrite Hl in IHl. rewrite Hls in *. rewrite Hn in *.
      repeat split; try assumption; try lia.
    + subst cc'. auto.
Qed.

(** C5. Since the creation of a [ContaCorrente]:
    - the count of withdrawals is the number of withdrawals that returned
      [True], and the limits are those given at creation;
    - no call ever lowers the count, and a call raises it by at most one;
    - when the cap given at creation is not negative, the count never
      exceeds it;
    - once exactly [limite_saques] withdrawals have returned [True], then
      after any further calls, a withdrawal of any amount that is not
      above [_limite] is refused with the maximum-withdrawals text
      ([WithdrawalCapReached]), the object is left as it was, and the
      count is still [limite_saques]. *)
Theorem numero_saques_spec (numero : Z) (cliente : RefCliente) (limite : float)
    (limite_saques : Z) (cs : list Chamada) (w : Mundo) :
  let inicial := ContaCorrente_init numero cliente limite limite_saques in
  let r := executar chamar_cc inicial cs w in
  _numero_saques (snd (fst r)) = saques_realizados cs (fst (fst r))
  /\ (forall (c : Chamada),
        (_numero_saques (snd (fst r))
         <= _numero_saques (snd (fst (chamar_cc (snd (fst r)) c (snd r))))
         <= _numero_saques (snd (fst r)) + 1)%Z)
  /\ ((0 <= limite_saques)%Z -> (_numero_saques (snd (fst r)) <= limite_saques)%Z)
  /\ (saques_realizados cs (fst (fst r)) = limite_saques ->
      forall (cs2 : list Chamada) (v : float),
        (limite <? v) = false ->
        let r2 := executar chamar_cc (snd (fst r)) cs2 (snd r) in
        ContaCorrente_sacar (snd (fst r2)) v (snd r2) =
          (false, snd (fst r2), imprimir (snd r2) ErroSaqueMaximoSaques)
        /\ _numero_saques (snd (fst r2)) = limite_saques).
Proof.
  intros inicial r.
  destruct (executar_numero_saques cs inicial w) as (Hl & Hls & Hn & Hle & Hp).
  fold r in Hl, Hls, Hn, Hle, Hp. cbn in Hl, Hls, Hn, Hle.
  split; [lia |]. split; [| split].
  - intros c. pose proof (chamar_cc_efeito (snd (fst r)) c (snd r)) as He.
    destruct (chamar_cc (snd (fst r)) c (snd r)) as [[ok cc'] w']. cbn [fst snd] in *.
    destruct c as [v | v], ok; cbn [efeito_cc] in He.
    + destruct He as (_ & _ & He). lia.
    + subst cc'. lia.
    + destruct He as (_ & _ & _ & _ & He). lia.
    + subst cc'. lia.
  - exact Hle.
  - intros Hcap cs2 v Hv r2.
    destruct (executar_numero_saques cs2 (snd (fst r)) (snd r))
      as (Hl2 & Hls2 & Hn2 & Hle2 & Hp2).
    fold r2 in Hl2, Hls2, Hn2, Hle2, Hp2.
    assert (Hcount : _numero_saques (snd (fst r2)) = limite_saques).
    { rewrite Hls in Hle2. lia. }
    split; [| exact Hcount].
    apply ContaCorrente_sacar_maximo_saques.
    + rewrite Hl2, Hl. exact Hv.
    + rewrite Hls2, Hls. lia.
Qed.

(** ** Deposits on a [ContaCorrente] *)

Lemma executar_depositos (vs : list float) (cc : ContaCorrente) (w : Mundo) :
  Forall (fun v => (0 <? v) = true) vs ->
  fst (fst (executar chamar_cc cc (List.map Depositar vs) w)) =
    List.repeat true (List.length vs)
  /\ _saldo (da_conta (snd (fst (executar chamar_cc cc (List.map Depositar vs) w)))) =
       fold_left PrimFloat.add vs (_saldo (da_conta cc))
  /\ _numero_saques (snd (fst (executar chamar_cc cc (List.map Depositar vs) w))) =
       _numero_saques cc.
Proof.
  intros Hvs. revert cc w. induction Hvs as [| v vs Hv Hvs IH]; intros cc w.
  - cbn. auto.
  - cbn [List.map]. rewrite executar_cons. cbn [fst snd chamar_cc].
    destruct (ContaCorrente_depositar_casos cc v w) as [[Hle _] | [_ H]].
    { apply float_ltb_leb in Hv. congruence. }
    rewrite H. cbn [fst snd].
    match goal with
    | |- context [executar chamar_cc ?c _ ?w'] =>
        destruct (IH c w') as (IH1 & IH2 & IH3)
    end.
    rewrite IH1, IH2, IH3. cbn. auto.
Qed.

(** C9, as the code has it. [depositar] on a [ContaCorrente] looks neither
    at [_limite] nor at the count of withdrawals: whatever these are (an
    amount above the limit, a count that has reached the cap), a deposit of
    an amount [> 0] returns [True], appends its entry, leaves the limits
    and the count as they were, and the balance becomes the binary64 sum of
    the balance and the amount; and any number of deposits of amounts
    [> 0] in a row all return [True]. *)
Theorem ContaCorrente_depositar_sem_limites (self : ContaCorrente) (w : Mundo) :
  (forall v : float,
     (0 <? v) = true ->
     ContaCorrente_depositar self v w =
       (true,
        mk_ContaCorrente
          (mk_Conta (_saldo (da_conta self) + v) (_numero (da_conta self))
             (_agencia (da_conta self)) (_cliente (da_conta self))
             (mk_Historico
                (transacoes (_historico (da_conta self))
                   ++ [mk_Registro "Deposito" v (strftime (agora w))])))
          (_limite self) (_limite_saques self) (_numero_saques self),
        avancar w))
  /\ (forall vs : list float,
       Forall (fun v => (0 <? v) = true) vs ->
       fst (fst (executar chamar_cc self (List.map Depositar vs) w)) =
         List.repeat true (List.length vs)
       /\ _saldo (da_conta (snd (fst (executar chamar_cc self (List.map Depositar vs) w)))) =
            fold_left PrimFloat.add vs (_saldo (da_conta self))
       /\ _numero_saques (snd (fst (executar chamar_cc self (List.map Depositar vs) w))) =
            _numero_saques self).
Proof.
  split.
  - intros v Hv.
    destruct (ContaCorrente_depositar_casos self v w) as [[Hle _] | [_ H]].
    + apply float_ltb_leb in Hv. congruence.
    + exact H.
  - intros vs Hvs. apply executar_depositos. exact Hvs.
Qed.

(** ** [registrar] *)

(** What a call of [registrar] does to the history and to the balance is
    what the account method it calls does. *)
Lemma registrar_efeito (t : Transacao) (conta : Objeto) (w : Mundo) :
  efeito conta
    (match classe t with Deposito => Depositar (valor t) | Saque => Sacar (valor t) end)
    (fst (fst (registrar t conta w))) (snd (fst (registrar t conta w))).
Proof.
  unfold registrar. destruct (classe t).
  - apply (chamar_efeito conta (Depositar (valor t)) w).
  - apply (chamar_efeito conta (Sacar (valor t)) w).
Qed.

(** C8. [registrar] on a [Deposito] is [conta.depositar] on its amount, and
    on a [Saque] it is [conta.sacar] on its amount: same result, same
    object, same world afterwards. So the history changes only as the
    account's method changes it: it is untouched when the method returns
    [False], and it gains exactly one entry, of the class and amount of the
    transaction, when the method returns [True]. *)
Theorem registrar_spec (t : Transacao) (conta : Objeto) (w : Mundo) :
  (classe t = Deposito -> registrar t conta w = depositar conta (valor t) w)
  /\ (classe t = Saque -> registrar t conta w = sacar conta (valor t) w)
  /\ (fst (fst (registrar t conta w)) = false ->
      snd (fst (registrar t conta w)) = conta)
  /\ (fst (fst (registrar t conta w)) = true ->
      exists d : string,
        transacoes (historico (snd (fst (registrar t conta w)))) =
          transacoes (historico conta)
            ++ [mk_Registro (__name__ (classe t)) (valor t) d]).
Proof.
  pose proof (registrar_efeito t conta w) as He.
  split; [| split; [| split]].
  - intros Hc. unfold registrar. rewrite Hc. reflexivity.
  - intros Hc. unfold registrar. rewrite Hc. reflexivity.
  - intros Hr. rewrite Hr in He. destruct (classe t); exact He.
  - intros Hr. rewrite Hr in He.
    destruct (classe t); cbn [efeito] in He.
    + destruct He as (_ & _ & He). exact He.
    + destruct He as (_ & _ & _ & He). exact He.
Qed.

(** ** The entries of the history *)

Lemma depositar_registro (o : Objeto) (v : float) (w : Mundo) :
  fst (fst (depositar o v w)) = true ->
  transacoes (historico (snd (fst (depositar o v w)))) =
    transacoes (historico o) ++ [registro_de Deposito v w].
Proof.
  destruct o as [self | self]; cbn [depositar]; unfold bind.
  - destruct (v <=? 0) eqn:Hv.
    + rewrite Conta_depositar_invalido by assumption. discriminate.
    + rewrite Conta_depositar_aceito by assumption. reflexivity.
  - destruct (ContaCorrente_depositar_casos self v w) as [[_ H] | [_ H]];
      rewrite H; [discriminate | reflexivity].
Qed.

Lemma sacar_registro (o : Objeto) (v : float) (w : Mundo) :
  fst (fst (sacar o v w)) = true ->
  transacoes (historico (snd (fst (sacar o v w)))) =
    transacoes (historico o) ++ [registro_de Saque v w].
Proof.
  destruct o as [self | self]; cbn [sacar]; unfold bind.
  - destruct (v <=? 0) eqn:Hv.
    + rewrite Conta_sacar_invalido by assumption. discriminate.
    + destruct (_saldo self <? v) eqn:Hs.
      * rewrite Conta_sacar_sem_saldo by assumption. discriminate.
      * rewrite Conta_sacar_aceito by assumption. reflexivity.
  - destruct (ContaCorrente_sacar_casos self v w) as [[m H] | (_ & _ & _ & _ & H)];
      rewrite H; [discriminate | reflexivity].
Qed.

(** C7, as the code has it. The entry appended when a transaction is
    applied carries the class name and the amount of that transaction; its
    date is the formatted reading of the clock that the account's method
    takes when it builds its own [Deposito] or [Saque], during the call.
    For a transaction registered right after it was built, that is the
    reading that follows the one stored in the transaction. *)
Theorem registro_com_data_da_chamada (t : Transacao) (conta : Objeto) (w : Mundo) :
  fst (fst (registrar t conta w)) = true ->
  transacoes (historico (snd (fst (registrar t conta w)))) =
    transacoes (historico conta)
      ++ [mk_Registro (__name__ (classe t)) (valor t) (strftime (relogio w (tique w)))]
  /\ (forall w0 : Mundo,
        t = fst (Transacao_init (classe t) (valor t) w0) ->
        w = snd (Transacao_init (classe t) (valor t) w0) ->
        data t = relogio w0 (tique w0)
        /\ relogio w (tique w) = relogio w0 (S (tique w0))).
Proof.
  intros Hr. split.
  - unfold registrar in *. destruct (classe t).
    + apply depositar_registro. exact Hr.
    + apply sacar_registro. exact Hr.
  - intros w0 Ht Hw. split.
    + rewrite Ht at 1. reflexivity.
    + rewrite Hw. reflexivity.
Qed.

(** A deposit built at 12:00:00.999990 and registered 20 microseconds
    later leaves an entry dated 12:00:01, where the transaction holds
    12:00:00. *)
Lemma registro_com_outra_data : ~ registro_com_data_da_transacao.
Proof.
  intros H.
  specialize (H Deposito 100 (construir (NovaConta 1%Z 0%nat)) mundo_exemplo).
  cbv zeta in H. specialize (H eq_refl).
  vm_compute in H. discriminate H.
Qed.

(** ** [validar_cpf] *)

Lemma str_eqb_eq (a b : str) : str_eqb a b = true <-> a = b.
Proof.
  revert b. induction a as [| x a IH]; intros [| y b]; cbn; try (split; congruence).
  rewrite andb_true_iff, N.eqb_eq, IH. split.
  - intros [-> ->]. reflexivity.
  - intros H. injection H as -> ->. auto.
Qed.

Lemma str_eqb_refl (a : str) : str_eqb a a = true.
Proof. apply str_eqb_eq. reflexivity. Qed.

(** A decimal character stands at most nine code points after the digit
    zero of its script, and its value is that distance. *)
Lemma escrita_Some (c i : N) :
  escrita c = Some i -> (i <= c < i + 10)%N /\ In i inicios_decimais.
Proof.
  unfold escrita. intros H. apply find_some in H. destruct H as [Hin H].
  apply andb_prop in H. destruct H as [H1 H2].
  apply N.leb_le in H1. apply N.ltb_lt in H2. auto.
Qed.

Lemma valor_decimal_escrita (c i : N) :
  escrita c = Some i ->
  valor_decimal c = Some (Spec.digit_value c)
  /\ Spec.digit_value c = Z.of_N (c - i)
  /\ decimal c = true.
Proof.
  intros H. unfold decimal, Spec.digit_value, valor_decimal. rewrite H. auto.
Qed.

Lemma decimal_valor (c : N) :
  decimal c = true -> valor_decimal c = Some (Spec.digit_value c).
Proof.
  unfold decimal, Spec.digit_value. destruct (valor_decimal c); [reflexivity | discriminate].
Qed.

Lemma decimal_escrita (c : N) :
  decimal c = true -> exists i, escrita c = Some i.
Proof.
  unfold decimal, valor_decimal. destruct (escrita c) as [i |]; [eauto | discriminate].
Qed.

Lemma digit_value_range (c : N) : (0 <= Spec.digit_value c <= 9)%Z.
Proof.
  unfold Spec.digit_value, valor_decimal.
  destruct (escrita c) as [i |] eqn:H; [| lia].
  apply escrita_Some in H. lia.
Qed.

(** Two decimal characters of the same script are the same character
    exactly when they have the same value. *)
Lemma eqb_mesma_escrita (a b i : N) :
  escrita a = Some i -> escrita b = Some i ->
  (b =? a)%N = (Spec.digit_value a =? Spec.digit_value b)%Z.
Proof.
  intros Ha Hb.
  destruct (valor_decimal_escrita a i Ha) as (_ & Va & _).
  destruct (valor_decimal_escrita b i Hb) as (_ & Vb & _).
  apply escrita_Some in Ha, Hb. rewrite Va, Vb.
  destruct (N.eqb_spec b a) as [-> | Hne].
  - symmetry. apply Z.eqb_refl.
  - symmetry. apply Z.eqb_neq. lia.
Qed.

Lemma decimal_isdigit (c : N) : decimal c = true -> isdigit c = true.
Proof. intros H. unfold isdigit. rewrite H. reflexivity. Qed.

(** The digits from position [k] on start with the value of the character
    at position [k]. *)
Lemma skipn_nth_error (f : str) :
  forall (k : nat) (c : N),
    nth_error f k = Some c ->
    skipn k (List.map Spec.digit_value f) =
      Spec.digit_value c :: skipn (S k) (List.map Spec.digit_value f).
Proof.
  induction f as [| a f IHf]; intros k c Hget.
  - destruct k; discriminate.
  - destruct k as [| k]; cbn in *.
    + injection Hget as ->. reflexivity.
    + apply IHf. exact Hget.
Qed.

Lemma nth_error_In_lt (f : str) (i : nat) :
  (i < List.length f)%nat -> exists c, nth_error f i = Some c /\ In c f.
Proof.
  intros Hi. destruct (nth_error f i) as [c |] eqn:H.
  - exists c. split; [reflexivity |]. apply nth_error_In with i. exact H.
  - apply nth_error_None in H. lia.
Qed.

(** The loop of [validar_cpf] over positions [k] to [k + n - 1], all
    holding decimal characters, adds to [soma] the weighted sum of their
    values, the weights going down from [peso - k]. *)
Lemma somar_decimais (f : str) (peso : Z) (n : nat) :
  forall (k : nat) (soma : Z),
    (forall i, (k <= i < k + n)%nat ->
       exists c, nth_error f i = Some c /\ decimal c = true) ->
    somar f peso (seq k n) soma =
      Retorna (soma + Spec.weighted_sum (peso - Z.of_nat k)
                        (firstn n (skipn k (List.map Spec.digit_value f))))%Z.
Proof.
  induction n as [| n IH]; intros k soma Hk.
  - cbn. f_equal. lia.
  - destruct (Hk k ltac:(lia)) as (c & Hget & Hdec).
    cbn [seq somar]. unfold indice, int. rewrite Hget. cbn [ligar].
    rewrite (decimal_valor c Hdec). cbn [ligar].
    rewrite IH by (intros i Hi; apply Hk; lia).
    rewrite (skipn_nth_error f k c Hget). cbn [firstn Spec.weighted_sum]. f_equal.
    replace (peso - Z.of_nat (S k))%Z with (peso - Z.of_nat k - 1)%Z by lia.
    lia.
Qed.

(** When every digit character kept is decimal, [validar_cpf] returns, and
    returns [True] exactly when eleven characters are kept, they are not
    eleven times the first of them, and the two check digits, computed on
    their values with weights 10 down to 2 and 11 down to 2, are the values
    at positions 9 and 10. *)
Lemma validar_cpf_decimais (cpf : str) :
  (forall c, In c cpf -> isdigit c = true -> decimal c = true) ->
  validar_cpf cpf =
    Retorna
      (let f := List.filter isdigit cpf in
       let ds := List.map Spec.digit_value f in
       (List.length f =? 11)%nat
       && negb (str_eqb f (repeat (nth 0 f 0%N) 11))
       && (Spec.check_digit 10 (firstn 9 ds) =? nth 9 ds 0)%Z
       && (Spec.check_digit 11 (firstn 10 ds) =? nth 10 ds 0)%Z).
Proof.
  intros Hcpf. unfold validar_cpf. cbv zeta.
  assert (Hdec : forall c, In c (List.filter isdigit cpf) -> decimal c = true).
  { intros c Hc. apply filter_In in Hc. destruct Hc as [Hin Hd]. auto. }
  generalize dependent (List.filter isdigit cpf). clear Hcpf. intros f Hdec.
  destruct (List.length f =? 11)%nat eqn:Hlen; [| reflexivity].
  apply Nat.eqb_eq in Hlen. cbn [negb andb].
  assert (Hget : forall i, (i < 11)%nat ->
            exists c, nth_error f i = Some c /\ decimal c = true).
  { intros i Hi. rewrite <- Hlen in Hi. destruct (nth_error_In_lt f i Hi) as (c & Hc & Hin).
    exists c. auto. }
  rewrite (somar_decimais f 10 9 0 0) by (intros i Hi; apply Hget; lia).
  rewrite (somar_decimais f 11 10 0 0) by (intros i Hi; apply Hget; lia).
  cbn [ligar skipn]. change (Z.of_nat 0) with 0%Z. rewrite !Z.sub_0_r, !Z.add_0_l.
  fold (Spec.check_digit 10 (firstn 9 (List.map Spec.digit_value f))).
  fold (Spec.check_digit 11 (firstn 10 (List.map Spec.digit_value f))).
  set (dv1 := Spec.check_digit 10 _). set (dv2 := Spec.check_digit 11 _).
  clearbody dv1 dv2. clear Hget.
  do 11 (destruct f as [| ? f]; [discriminate Hlen |]).
  destruct f; [| discriminate Hlen].
  unfold indice, int. cbn [nth_error ligar nth List.map].
  rewrite !decimal_valor by (apply Hdec; cbn; tauto).
  cbn [ligar].
  destruct (str_eqb _ _); cbn [negb andb]; [reflexivity |].
  repeat match goal with
         | |- context [(?x =? ?y)%Z] => destruct (x =? y)%Z
         end; reflexivity.
Qed.

(** On a candidate whose digit characters all are decimal digits of one
    script, [validar_cpf] returns what the specification describes: it keeps
    the digits, answers [False] unless eleven are left and they are not all
    the same, and then compares the two check digits with the digits at
    positions 9 and 10. *)
Lemma validar_cpf_uma_escrita (cpf : str) (z : N) :
  (forall c, In c cpf -> isdigit c = true -> escrita c = Some z) ->
  validar_cpf cpf = Retorna (Spec.validate cpf).
Proof.
  intros Hcpf.
  assert (Hd : forall c, In c cpf -> isdigit c = true -> decimal c = true).
  { intros c Hc Hi. apply (valor_decimal_escrita c z). auto. }
  rewrite (validar_cpf_decimais cpf Hd). f_equal. cbv zeta.
  assert (Hf : List.filter decimal cpf = List.filter isdigit cpf).
  { apply filter_ext_in. intros c Hc.
    destruct (isdigit c) eqn:Hi.
    - apply Hd; assumption.
    - destruct (decimal c) eqn:Hc'; [| reflexivity].
      rewrite (decimal_isdigit c Hc') in Hi. discriminate. }
  unfold Spec.validate, Spec.digits. cbv zeta. rewrite Hf.
  assert (Hz : forall c, In c (List.filter isdigit cpf) -> escrita c = Some z).
  { intros c Hc. apply filter_In in Hc. destruct Hc as [Hin Hi]. auto. }
  generalize dependent (List.filter isdigit cpf). clear Hcpf Hd. intros f _ Hz.
  rewrite length_map.
  destruct (List.length f =? 11)%nat eqn:Hlen; [| reflexivity].
  apply Nat.eqb_eq in Hlen. cbn [andb]. f_equal. f_equal. f_equal.
  do 11 (destruct f as [| ? f]; [discriminate Hlen |]).
  destruct f; [| discriminate Hlen].
  cbn [nth repeat str_eqb List.map Spec.all_identical List.forallb].
  rewrite N.eqb_refl.
  repeat match goal with
         | |- context [(?b =? ?a)%N] =>
             rewrite (eqb_mesma_escrita a b z) by (apply Hz; cbn; tauto)
         end.
  reflexivity.
Qed.

Example validar_cpf_repetido : validar_cpf (texto "11111111111") = Retorna false.
Proof. reflexivity. Qed.

Example validar_cpf_referencia : validar_cpf (texto "52998224725") = Retorna true.
Proof. reflexivity. Qed.

Example validar_cpf_pontuado : validar_cpf (texto "529.982.247-25") = Retorna true.
Proof. reflexivity. Qed.

(** The reference number typed in Arabic-Indic digits (U+0660 to U+0669)
    is accepted as well: [str.isdigit] keeps these digits and [int] reads
    them. *)
Example validar_cpf_arabico :
  validar_cpf
    [0x665; 0x662; 0x669; 0x669; 0x668; 0x662; 0x662; 0x664; 0x667; 0x662; 0x665]%N =
    Retorna true.
Proof. reflexivity. Qed.

(** Eleven digits of value 1 written in two scripts are not eleven times
    the same character: the repetition test lets them through, and both
    check digits of eleven ones are 1. *)
Example validar_cpf_duas_escritas :
  validar_cpf (0x31 :: repeat 0x661 10)%N = Retorna true
  /\ Spec.validate (0x31 :: repeat 0x661 10)%N = false.
Proof. split; reflexivity. Qed.

(** C6, where the code departs from it. [str.isdigit] keeps the superscript
    digits, which [int] does not read: on ["1"] followed by ten times
    U+00B2 the eleven characters pass the length test and the repetition
    test, and the first loop raises [ValueError] at position 1, where the
    validator of the specification answers [False]. *)
Theorem validar_cpf_levanta_ValueError :
  List.length cpf_sobrescrito = 11%nat
  /\ List.filter isdigit cpf_sobrescrito = cpf_sobrescrito
  /\ validar_cpf cpf_sobrescrito = Levanta ValueError
  /\ Spec.validate cpf_sobrescrito = false.
Proof. repeat split. Qed.

(** * Runs on concrete objects *)

(** The end-to-end scenario: a deposit of 1000 is accepted; 600 is above
    the limit; two withdrawals of 400 are accepted and the third finds a
    balance of 200; the history holds three entries. *)
Example cenario_completo :
  let r := executar chamar_cc conta_exemplo chamadas_exemplo mundo_exemplo in
  fst (fst r) = [true; false; true; true; false]
  /\ _saldo (da_conta (snd (fst r))) = 200
  /\ List.length (transacoes (_historico (da_conta (snd (fst r))))) = 3%nat
  /\ _numero_saques (snd (fst r)) = 2%Z
  /\ stdout (snd r) = [ErroSaqueExcedeLimite; ErroSaqueSaldoInsuficiente].
Proof. vm_compute. repeat split. Qed.

(** Amounts with decimals: deposits of 0.1 and 0.2 leave a balance of
    0.30000000000000004, which a withdrawal of that amount empties. *)
Example cenario_decimais :
  let r := executar chamar (construir (NovaConta 1%Z 0%nat))
             [Depositar 0.1; Depositar 0.2; Sacar 0.30000000000000004] mundo_exemplo in
  fst (fst r) = [true; true; true]
  /\ saldo (snd (fst r)) = 0.
Proof. vm_compute. repeat split. Qed.

(** Amounts that are not numbers: [float("nan")] is not [<= 0], so its
    deposit is accepted and the balance is not a number any more; no amount
    is then above the balance, so a withdrawal of 5 is accepted. A deposit of
    [float("inf")] is accepted too. *)
Example cenario_nan :
  let r := executar chamar (construir (NovaConta 1%Z 0%nat))
             [Depositar nan; Sacar 5] mundo_exemplo in
  fst (fst r) = [true; true]
  /\ is_nan (saldo (snd (fst r))) = true
  /\ fst (fst (depositar (construir (NovaConta 1%Z 0%nat)) infinity mundo_exemplo)) = true.
Proof. vm_compute. repeat split. Qed.

(** The amounts of the examples that follow are whole numbers, which
    binary64 holds as they are. *)
Example exato_inteiros :
  (exato 1 == 1 /\ exato 1e16 == 10000000000000000 /\ exato 0.5 == 1 # 2
   /\ exato 9007199254740992 == 9007199254740992
   /\ exato 9007199254740994 == 9007199254740994)%Q.
Proof. vm_compute. repeat split. Qed.


Example chamadas_arredondadas_resultado :
  let r := executar chamar (construir (NovaConta 1%Z 0%nat)) chamadas_arredondadas
             mundo_exemplo in
  fst (fst r) = [true; true; true]
  /\ saldo (snd (fst r)) = 0
  /\ (soma_exata (depositos_aceitos chamadas_arredondadas (fst (fst r)))
      - soma_exata (saques_aceitos chamadas_arredondadas (fst (fst r))) == 1)%Q.
Proof. vm_compute. repeat split. Qed.

(** C2 fails as a statement about numbers: on an account holding
    10000000000000000 a deposit of 1 is accepted and leaves the balance at
    10000000000000000. *)
Lemma depositar_nao_soma_exata : ~ depositar_soma_exata.
Proof.
  intros H.
  specialize (H (UmaConta conta_grande) 1 mundo_exemplo eq_refl).
  vm_compute in H. discriminate H.
Qed.

Example depositar_arredonda :
  saldo (UmaConta conta_grande) = 1e16
  /\ fst (fst (depositar (UmaConta conta_grande) 1 mundo_exemplo)) = true
  /\ saldo (snd (fst (depositar (UmaConta conta_grande) 1 mundo_exemplo))) = 1e16
  /\ 0.1 + 0.2 = 0.30000000000000004.
Proof. repeat split. Qed.

(** C3 fails as a statement about numbers: on an account holding
    10000000000000000 a withdrawal of 0.5 is accepted and leaves the
    balance at 10000000000000000. *)
Lemma Conta_sacar_nao_subtrai_exato : ~ Conta_sacar_subtrai_exato.
Proof.
  intros H.
  specialize (H conta_grande 0.5 mundo_exemplo eq_refl eq_refl).
  vm_compute in H. discriminate H.
Qed.

Example Conta_sacar_arredonda :
  fst (fst (Conta_sacar conta_grande 0.5 mundo_exemplo)) = true
  /\ _saldo (snd (fst (Conta_sacar conta_grande 0.5 mundo_exemplo))) = 1e16.
Proof. repeat split. Qed.

(** C9 fails as a statement about numbers: on a [ContaCorrente] holding
    9007199254740992 a deposit of 1 is accepted and leaves the balance at
    9007199254740992. *)
Lemma ContaCorrente_depositar_nao_soma_exata : ~ ContaCorrente_depositar_soma_exata.
Proof.
  intros H.
  specialize (H conta_corrente_grande 1 mundo_exemplo eq_refl).
  destruct H as [_ H]. vm_compute in H. discriminate H.
Qed.

Example ContaCorrente_depositar_arredonda :
  _saldo (da_conta conta_corrente_grande) = 9007199254740992
  /\ fst (fst (ContaCorrente_depositar conta_corrente_grande 1 mundo_exemplo)) = true
  /\ _saldo (da_conta (snd (fst (ContaCorrente_depositar conta_corrente_grande 1
                                    mundo_exemplo)))) = 9007199254740992.
Proof. repeat split. Qed.

Lemma depositar_spec_witness :
  depositar (UmaContaCorrente conta_exemplo) (-5) mundo_exemplo =
    (false, UmaContaCorrente conta_exemplo,
     imprimir mundo_exemplo ErroDepositoValorInvalido)
  /\ saldo (snd (fst (depositar (UmaContaCorrente conta_exemplo) 100 mundo_exemplo))) =
       saldo (UmaContaCorrente conta_exemplo) + 100.
Proof.
  split.
  - apply (proj1 (proj2 (depositar_spec (UmaContaCorrente conta_exemplo) (-5) mundo_exemplo))).
    reflexivity.
  - apply (proj2 (proj2 (depositar_spec (UmaContaCorrente conta_exemplo) 100 mundo_exemplo))).
    reflexivity.
Defined.

Lemma Conta_sacar_spec_witness :
  Conta_sacar conta_com_saldo (-5) mundo_exemplo =
    (false, conta_com_saldo, imprimir mundo_exemplo ErroSaqueValorInvalido)
  /\ Conta_sacar conta_com_saldo 150 mundo_exemplo =
       (false, conta_com_saldo, imprimir mundo_exemplo ErroSaqueSaldoInsuficiente)
  /\ _saldo (snd (fst (Conta_sacar conta_com_saldo 40 mundo_exemplo))) =
       _saldo conta_com_saldo - 40.
Proof.
  split; [| split].
  - apply (proj1 (Conta_sacar_spec conta_com_saldo (-5) mundo_exemplo)). reflexivity.
  - apply (proj1 (proj2 (Conta_sacar_spec conta_com_saldo 150 mundo_exemplo))).
    + reflexivity.
    + reflexivity.
  - apply (proj2 (proj2 (Conta_sacar_spec conta_com_saldo 40 mundo_exemplo))).
    + reflexivity.
    + reflexivity.
Defined.

Lemma ContaCorrente_sacar_spec_witness :
  ContaCorrente_sacar conta_exemplo (500.01) mundo_exemplo =
    (false, conta_exemplo, imprimir mundo_exemplo ErroSaqueExcedeLimite)
  /\ ContaCorrente_sacar conta_exemplo 600 mundo_exemplo =
       (false, conta_exemplo, imprimir mundo_exemplo ErroSaqueExcedeLimite)
  /\ ContaCorrente_sacar conta_exemplo 400 mundo_exemplo =
       (false, conta_exemplo, imprimir mundo_exemplo ErroSaqueSaldoInsuficiente).
Proof.
  split; [| split].
  - apply (proj1 (proj2 (ContaCorrente_sacar_spec conta_exemplo 0 mundo_exemplo))).
    reflexivity.
  - apply (proj1 (ContaCorrente_sacar_spec conta_exemplo 600 mundo_exemplo)).
    reflexivity.
  - apply (proj2 (proj2 (proj2 (ContaCorrente_sacar_spec conta_exemplo 400 mundo_exemplo)))).
    + reflexivity.
    + vm_compute. intros H. apply H. reflexivity.
    + reflexivity.
Defined.

Lemma ContaCorrente_sacar_maximo_antes_de_valor_witness :
  let cc := snd (fst (executar chamar_cc conta_um_saque chamadas_um_saque mundo_exemplo)) in
  (_numero_saques cc >= _limite_saques cc)%Z
  /\ ContaCorrente_sacar cc (-5) mundo_exemplo =
       (false, cc, imprimir mundo_exemplo ErroSaqueMaximoSaques).
Proof.
  intros cc. split.
  - vm_compute. discriminate.
  - apply (ContaCorrente_sacar_maximo_antes_de_valor cc (-5) mundo_exemplo).
    + vm_compute. discriminate.
    + reflexivity.
    + reflexivity.
Defined.

Lemma numero_saques_spec_witness :
  let r := executar chamar_cc conta_um_saque chamadas_um_saque mundo_exemplo in
  saques_realizados chamadas_um_saque (fst (fst r)) = 1%Z
  /\ (_numero_saques (snd (fst r)) <= 1)%Z
  /\ ContaCorrente_sacar
       (snd (fst (executar chamar_cc (snd (fst r)) [Depositar 10] (snd r)))) 20
       (snd (executar chamar_cc (snd (fst r)) [Depositar 10] (snd r))) =
       (false,
        snd (fst (executar chamar_cc (snd (fst r)) [Depositar 10] (snd r))),
        imprimir (snd (executar chamar_cc (snd (fst r)) [Depositar 10] (snd r)))
          ErroSaqueMaximoSaques).
Proof.
  intros r. split; [reflexivity |]. split.
  - apply (proj1 (proj2 (proj2
      (numero_saques_spec 2%Z 0%nat 500 1%Z chamadas_um_saque mundo_exemplo)))).
    lia.
  - apply (proj2 (proj2 (proj2
      (numero_saques_spec 2%Z 0%nat 500 1%Z chamadas_um_saque mundo_exemplo)))).
    + reflexivity.
    + reflexivity.
Defined.

Lemma registro_com_data_da_chamada_witness :
  let t := fst (Transacao_init Deposito 100 mundo_exemplo) in
  let w := snd (Transacao_init Deposito 100 mundo_exemplo) in
  fst (fst (registrar t (UmaContaCorrente conta_exemplo) w)) = true
  /\ transacoes (historico (snd (fst (registrar t (UmaContaCorrente conta_exemplo) w)))) =
       [mk_Registro "Deposito" 100 "04-11-2026 12:00:01"]
  /\ strftime (data t) = "04-11-2026 12:00:00"%string.
Proof.
  intros t w. split; [reflexivity |]. split; [| reflexivity].
  apply (proj1 (registro_com_data_da_chamada t (UmaContaCorrente conta_exemplo) w eq_refl)).
Defined.

Lemma registrar_spec_witness :
  let t := fst (Transacao_init Saque 40 mundo_exemplo) in
  registrar t (UmaConta conta_com_saldo) mundo_exemplo =
    sacar (UmaConta conta_com_saldo) 40 mundo_exemplo
  /\ snd (fst (registrar t (UmaConta (Conta_init 3%Z 0%nat)) mundo_exemplo)) =
       UmaConta (Conta_init 3%Z 0%nat).
Proof.
  intros t. split.
  - apply (proj1 (proj2 (registrar_spec t (UmaConta conta_com_saldo) mundo_exemplo))).
    reflexivity.
  - apply (proj1 (proj2 (proj2
      (registrar_spec t (UmaConta (Conta_init 3%Z 0%nat)) mundo_exemplo)))).
    reflexivity.
Defined.

Lemma ContaCorrente_depositar_sem_limites_witness :
  let cc := snd (fst (executar chamar_cc conta_um_saque chamadas_um_saque mundo_exemplo)) in
  _numero_saques cc = _limite_saques cc
  /\ fst (fst (ContaCorrente_depositar cc 1000 mundo_exemplo)) = true
  /\ fst (fst (executar chamar_cc cc (List.map Depositar [600; 700; 800]) mundo_exemplo)) =
       [true; true; true].
Proof.
  intros cc. split; [reflexivity |]. split.
  - rewrite (proj1 (ContaCorrente_depositar_sem_limites cc mundo_exemplo) 1000).
    + reflexivity.
    + reflexivity.
  - apply (proj2 (ContaCorrente_depositar_sem_limites cc mundo_exemplo) [600; 700; 800]).
    repeat constructor.
Defined.

(** * Further properties of the account classes *)

(** ** One call, with the world it leaves *)

(** A call either returns [True], reads the clock once, prints nothing and
    appends its entry; or returns [False], prints one text and leaves the
    object and the clock as they were. *)
Lemma chamar_passo (o : Objeto) (c : Chamada) (w : Mundo) :
  (fst (fst (chamar o c w)) = true
   /\ snd (chamar o c w) = avancar w
   /\ transacoes (historico (snd (fst (chamar o c w)))) =
        transacoes (historico o) ++ [registro_de (classe_de c) (valor_de c) w]
   /\ atributos_fixos (snd (fst (chamar o c w))) = atributos_fixos o)
  \/ (fst (fst (chamar o c w)) = false
      /\ snd (fst (chamar o c w)) = o
      /\ exists m, snd (chamar o c w) = imprimir w m).
Proof.
  destruct c as [v | v]; destruct o as [self | self];
    cbn [chamar depositar sacar classe_de valor_de]; unfold bind.
  - destruct (v <=? 0) eqn:Hv.
    + rewrite Conta_depositar_invalido by assumption. right. repeat split. eexists; reflexivity.
    + rewrite Conta_depositar_aceito by assumption. left. repeat split.
  - destruct (ContaCorrente_depositar_casos self v w) as [[_ H] | [_ H]]; rewrite H.
    + right. repeat split. eexists; reflexivity.
    + left. repeat split.
  - destruct (v <=? 0) eqn:Hv.
    + rewrite Conta_sacar_invalido by assumption. right. repeat split. eexists; reflexivity.
    + destruct (_saldo self <? v) eqn:Hs.
      * rewrite Conta_sacar_sem_saldo by assumption. right. repeat split. eexists; reflexivity.
      * rewrite Conta_sacar_aceito by assumption. left. repeat split.
  - destruct (ContaCorrente_sacar_casos self v w) as [[m H] | (_ & _ & _ & _ & H)]; rewrite H.
    + right. repeat split. eexists; reflexivity.
    + left. repeat split.
Qed.

(** ** The history, the clock and the output after a sequence of calls *)

(** X1. After any sequence of calls on any account object, the history is
    the history before followed by one entry for each call that returned
    [True], in the order of the calls, with the class name and amount of
    the call and dated by successive readings of the clock; so its length
    grew by the number of calls that returned [True]. *)
Theorem historico_apos_executar (cs : list Chamada) (o : Objeto) (w : Mundo) :
  transacoes (historico (snd (fst (executar chamar o cs w)))) =
    transacoes (historico o)
      ++ registros (relogio w) (tique w) (aceitas cs (fst (fst (executar chamar o cs w))))
  /\ List.length (transacoes (historico (snd (fst (executar chamar o cs w))))) =
       (List.length (transacoes (historico o))
        + chamadas_aceitas (fst (fst (executar chamar o cs w))))%nat.
Proof.
  revert o w. induction cs as [| c cs IH]; intros o w.
  - cbn. rewrite app_nil_r. split; [reflexivity | lia].
  - rewrite executar_cons. cbn [fst snd].
    destruct (IH (snd (fst (chamar o c w))) (snd (chamar o c w))) as [IH1 IH2].
    destruct (chamar_passo o c w) as [(Hok & Hw & Hh & _) | (Hok & Ho & m & Hw)];
      (split; [rewrite IH1 | rewrite IH2]); rewrite Hok, ?Hw;
      cbn [aceitas chamadas_aceitas List.filter List.length].
    + rewrite Hh, <- app_assoc. reflexivity.
    + rewrite Hh, length_app. unfold chamadas_aceitas. cbn. lia.
    + rewrite Ho. reflexivity.
    + rewrite Ho. reflexivity.
Qed.

(** X2. A sequence of calls returns one result for each call; it reads the
    clock once for each call that returned [True] and prints exactly one
    text for each call that returned [False], after what was already
    printed; the clock itself is not touched. *)
Theorem mundo_apos_executar (cs : list Chamada) (o : Objeto) (w : Mundo) :
  List.length (fst (fst (executar chamar o cs w))) = List.length cs
  /\ relogio (snd (executar chamar o cs w)) = relogio w
  /\ tique (snd (executar chamar o cs w)) =
       (tique w + chamadas_aceitas (fst (fst (executar chamar o cs w))))%nat
  /\ exists ms : list Mensagem,
       stdout (snd (executar chamar o cs w)) = stdout w ++ ms
       /\ List.length ms = chamadas_recusadas (fst (fst (executar chamar o cs w))).
Proof.
  revert o w. induction cs as [| c cs IH]; intros o w.
  - cbn. repeat split; [lia |]. exists []. rewrite app_nil_r. split; reflexivity.
  - rewrite executar_cons. cbn [fst snd].
    destruct (IH (snd (fst (chamar o c w))) (snd (chamar o c w)))
      as (IHl & IHr & IHt & ms & IHs & IHm).
    cbn [List.length]. rewrite IHr, IHt, IHs, IHl.
    unfold chamadas_aceitas, chamadas_recusadas in *.
    destruct (chamar_passo o c w) as [(Hok & Hw & _) | (Hok & _ & m & Hw)].
    + assert (Hr : relogio (snd (chamar o c w)) = relogio w) by (rewrite Hw; reflexivity).
      assert (Ht : tique (snd (chamar o c w)) = S (tique w)) by (rewrite Hw; reflexivity).
      assert (Hs : stdout (snd (chamar o c w)) = stdout w) by (rewrite Hw; reflexivity).
      rewrite Hr, Ht, Hs, Hok. cbn [List.length List.filter negb].
      split; [reflexivity |]. split; [reflexivity |]. split; [lia |].
      exists ms. split; [reflexivity | assumption].
    + assert (Hr : relogio (snd (chamar o c w)) = relogio w) by (rewrite Hw; reflexivity).
      assert (Ht : tique (snd (chamar o c w)) = tique w) by (rewrite Hw; reflexivity).
      assert (Hs : stdout (snd (chamar o c w)) = stdout w ++ [m]) by (rewrite Hw; reflexivity).
      rewrite Hr, Ht, Hs, Hok. cbn [List.length List.filter negb].
      split; [reflexivity |]. split; [reflexivity |]. split; [reflexivity |].
      exists (m :: ms). rewrite <- app_assoc. split; [reflexivity | cbn; lia].
Qed.

(** X3. No sequence of calls changes the number, the branch, the owner or
    the limits of an account object; the branch of every created object is
    ["0001"]. *)
Theorem atributos_fixos_apos_executar (cs : list Chamada) (o : Objeto) (w : Mundo) :
  atributos_fixos (snd (fst (executar chamar o cs w))) = atributos_fixos o
  /\ forall k : Construtor,
       _agencia (conta_de (snd (fst (executar chamar (construir k) cs w)))) = "0001"%string.
Proof.
  assert (H : forall cs o w,
             atributos_fixos (snd (fst (executar chamar o cs w))) = atributos_fixos o).
  { clear. induction cs as [| c cs IH]; intros o w.
    - reflexivity.
    - rewrite executar_cons. cbn [fst snd]. rewrite IH.
      destruct (chamar_passo o c w) as [(_ & _ & _ & Ha) | (_ & Ho & _)].
      + exact Ha.
      + rewrite Ho. reflexivity. }
  split; [apply H |].
  intros k. specialize (H cs (construir k) w).
  apply (f_equal (fun t => snd (fst (fst t)))) in H. cbn [atributos_fixos fst snd] in H.
  rewrite H. destruct k; reflexivity.
Qed.

(** ** The balance and the history *)

(** The balance follows the history: when the balance of an object is what
    its history builds up, it is still so after any sequence of calls. *)
Lemma executar_saldo_historico (cs : list Chamada) (o : Objeto) (w : Mundo) :
  saldo o = total_do_historico (historico o) ->
  saldo (snd (fst (executar chamar o cs w))) =
    total_do_historico (historico (snd (fst (executar chamar o cs w)))).
Proof.
  revert o w. induction cs as [| c cs IH]; intros o w Ho.
  - exact Ho.
  - rewrite executar_cons. cbn [fst snd]. apply IH.
    pose proof (chamar_efeito o c w) as He.
    destruct (chamar o c w) as [[ok o'] w']. cbn [fst snd] in *.
    unfold total_do_historico in *.
    destruct c as [v | v], ok; cbn [efeito] in He.
    + destruct He as (_ & Hs & d & Hh).
      rewrite Hh, fold_left_app, <- Ho, Hs. reflexivity.
    + subst o'. exact Ho.
    + destruct He as (_ & _ & Hs & d & Hh).
      rewrite Hh, fold_left_app, <- Ho, Hs. reflexivity.
    + subst o'. exact Ho.
Qed.

(** X4. The history accounts for the balance: after any sequence of calls
    on a freshly created account object, the balance is what the entries of
    the history build up from zero in binary64 arithmetic, entry after
    entry, a [Deposito] entry adding its amount and a [Saque] entry
    subtracting it. *)
Theorem saldo_confere_com_historico (k : Construtor) (cs : list Chamada) (w : Mundo) :
  saldo (snd (fst (executar chamar (construir k) cs w))) =
    total_do_historico (historico (snd (fst (executar chamar (construir k) cs w)))).
Proof.
  apply executar_saldo_historico. destruct k; reflexivity.
Qed.

(** ** The amount a [ContaCorrente] can pay out *)

(** A limit that is a number and is not below zero stands for a number
    that is not below zero. *)
Lemma float_exato_nao_negativo (l : float) :
  (0 <=? l) = true -> (0 <= exato l)%Q.
Proof.
  rewrite leb_spec. change (Prim2SF 0) with SFzero. unfold exato.
  destruct (Prim2SF l) as [s | s | | s m e]; cbn [SF2Q]; intros H;
    try apply Qle_refl.
  destruct s; [discriminate H |].
  apply Qlt_le_weak. apply (SF2Q_positivo m e).
Qed.

(** The accepted withdrawals of a sequence of calls whose amounts are
    numbers add up to at most the limit times their number. *)
Lemma executar_saques_limitados (cs : list Chamada) (cc : ContaCorrente) (w : Mundo) :
  (_limite cc <? infinity) = true ->
  Forall (fun c => is_nan (valor_de c) = false) cs ->
  (soma_exata (saques_aceitos cs (fst (fst (executar chamar_cc cc cs w)))) <=
     inject_Z (saques_realizados cs (fst (fst (executar chamar_cc cc cs w))))
     * exato (_limite cc))%Q.
Proof.
  intros Hfin Hcs. revert cc w Hfin.
  induction Hcs as [| c cs Hc Hcs IH]; intros cc w Hfin.
  - cbn. change (inject_Z 0) with 0%Q. lra.
  - rewrite executar_cons. cbn [fst snd].
    destruct c as [v | v]; cbn [chamar_cc valor_de] in *.
    + destruct (ContaCorrente_depositar_casos cc v w) as [[_ H] | [_ H]];
        rewrite H; cbn [fst snd saques_aceitos saques_realizados];
        match goal with
        | |- context [executar chamar_cc ?c _ ?w'] => apply (IH c w'); exact Hfin
        end.
    + destruct (ContaCorrente_sacar_casos cc v w) as [[m H] | (Hv & _ & Hl & _ & H)];
        rewrite H; cbn [fst snd saques_aceitos saques_realizados soma_exata fold_right].
      * apply (IH cc). exact Hfin.
      * match goal with
        | |- context [executar chamar_cc ?c _ ?w'] => pose proof (IH c w' Hfin) as IH'
        end.
        cbn [_limite] in IH'.
        destruct (float_exato_limitado (_limite cc) v Hc Hv Hl Hfin) as [_ Hle].
        unfold soma_exata in IH'.
        rewrite inject_Z_plus. change (inject_Z 1) with 1%Q. lra.
Qed.

(** X5. A [ContaCorrente] created with a limit that is a number not below
    zero and with a cap that is not negative never pays out, in total, more
    than the cap times the limit, whatever is deposited and whatever calls
    are made with amounts that are numbers: the numbers that the accepted
    withdrawals stand for add up to at most the cap times the number that
    the limit stands for. *)
Theorem total_sacado_limitado (numero : Z) (cliente : RefCliente) (limite : float)
    (limite_saques : Z) (cs : list Chamada) (w : Mundo) :
  (0 <=? limite) = true ->
  (limite <? infinity) = true ->
  (0 <= limite_saques)%Z ->
  Forall (fun c => is_nan (valor_de c) = false) cs ->
  (soma_exata
     (saques_aceitos cs
        (fst (fst (executar chamar_cc
                     (ContaCorrente_init numero cliente limite limite_saques) cs w))))
   <= inject_Z limite_saques * exato limite)%Q.
Proof.
  intros Hl Hfin Hc Hcs.
  set (inicial := ContaCorrente_init numero cliente limite limite_saques).
  pose proof (executar_saques_limitados cs inicial w Hfin Hcs) as Hs.
  destruct (executar_numero_saques cs inicial w) as (_ & _ & Hn & Hle & Hp).
  cbn [inicial ContaCorrente_init _limite _limite_saques _numero_saques] in Hs, Hn, Hle.
  specialize (Hle Hc).
  set (n := saques_realizados cs (fst (fst (executar chamar_cc inicial cs w)))) in *.
  assert (Hn' : (n <= limite_saques)%Z) by lia.
  apply Qle_trans with (inject_Z n * exato limite)%Q; [exact Hs |].
  apply Qmult_le_compat_r; [| apply float_exato_nao_negativo; exact Hl].
  rewrite <- Zle_Qle. exact Hn'.
Qed.

(** * Further properties of [validar_cpf] *)

(** Walks through the body of [validar_cpf] on eleven characters, deciding
    each test it meets. *)
Ltac percorrer :=
  repeat match goal with
         | |- context [match valor_decimal ?c with _ => _ end] =>
             destruct (valor_decimal c) eqn:?; cbn [ligar]
         | |- context [if negb (?x =? ?y)%Z then _ else _] =>
             destruct (x =? y)%Z; cbn [negb]
         end.


Lemma valor_decimal_None (c : N) : valor_decimal c = None -> decimal c = false.
Proof. unfold decimal. intros ->. reflexivity. Qed.

Lemma valor_decimal_Some (c : N) (d : Z) : valor_decimal c = Some d -> decimal c = true.
Proof. unfold decimal. intros ->. reflexivity. Qed.

(** When [validar_cpf] raises, it raises [ValueError], eleven digit
    characters were kept and one of them is not decimal; when it returns
    [True], eleven digit characters were kept and all are decimal. *)
Lemma validar_cpf_onze (s : str) :
  (forall e, validar_cpf s = Levanta e ->
     e = ValueError
     /\ List.length (List.filter isdigit s) = 11%nat
     /\ exists c, In c (List.filter isdigit s) /\ decimal c = false)
  /\ (validar_cpf s = Retorna true ->
      List.length (List.filter isdigit s) = 11%nat
      /\ forall c, In c (List.filter isdigit s) -> decimal c = true).
Proof.
  unfold validar_cpf. cbv zeta. generalize (List.filter isdigit s). clear s. intros f.
  destruct (List.length f =? 11)%nat eqn:Hlen; cbn [negb].
  2:{ split; [intros e H | intros H]; discriminate H. }
  apply Nat.eqb_eq in Hlen.
  do 11 (destruct f as [| ? f]; [discriminate Hlen |]).
  destruct f; [| discriminate Hlen]. clear Hlen.
  unfold indice. cbn [nth_error ligar].
  destruct (str_eqb _ _).
  { split; [intros e H | intros H]; discriminate H. }
  cbn [somar seq indice]. unfold indice, int. cbn [nth_error ligar].
  split.
  - intros e. percorrer; intros H; try discriminate H;
      injection H as <-; (split; [reflexivity |]); (split; [reflexivity |]);
      match goal with
      | Hc : valor_decimal ?c = None |- _ =>
          exists c; split; [cbn; tauto | exact (valor_decimal_None c Hc)]
      end.
  - percorrer; intros H; try discriminate H.
    split; [reflexivity |].
    intros c Hc. cbn in Hc.
    repeat (destruct Hc as [<- | Hc]; [eapply valor_decimal_Some; eassumption |]).
    contradiction.
Qed.

(** X6. [validar_cpf] raises nothing but [ValueError], and only on a
    candidate that holds exactly eleven digit characters one of which is a
    digit for [str.isdigit] that is not decimal (a superscript, a subscript,
    a circled digit and the like), which [int] does not read. *)
Theorem validar_cpf_so_levanta_ValueError (s : str) (e : Excecao) :
  validar_cpf s = Levanta e ->
  e = ValueError
  /\ List.length (List.filter isdigit s) = 11%nat
  /\ exists c, In c s /\ isdigit c = true /\ decimal c = false.
Proof.
  intros H. destruct (proj1 (validar_cpf_onze s) e H) as (He & Hl & c & Hc & Hd).
  apply filter_In in Hc. destruct Hc as [Hin Hdig].
  split; [exact He |]. split; [exact Hl |]. exists c. auto.
Qed.


(** X8. Characters that are not digits are ignored wherever they stand:
    removing from a candidate any run of them changes nothing to what
    [validar_cpf] returns or raises. *)
Theorem validar_cpf_ignora_separadores (s1 sep s2 : str) :
  (forall c, In c sep -> isdigit c = false) ->
  validar_cpf (s1 ++ sep ++ s2) = validar_cpf (s1 ++ s2).
Proof.
  intros Hsep. unfold validar_cpf. cbv zeta.
  assert (H : List.filter isdigit sep = []).
  { clear s1 s2. induction sep as [| c sep IH]; cbn.
    - reflexivity.
    - rewrite (Hsep c) by (cbn; auto). apply IH. intros c' Hc'. apply Hsep. cbn; auto. }
  rewrite !filter_app, H. reflexivity.
Qed.

Lemma decimal_caractere (d : Z) :
  (0 <= d <= 9)%Z ->
  escrita (caractere d) = Some 48%N /\ Spec.digit_value (caractere d) = d.
Proof.
  intros Hd.
  assert (H : In d [0; 1; 2; 3; 4; 5; 6; 7; 8; 9]%Z) by (cbn; lia).
  cbn in H. repeat (destruct H as [<- | H]; [split; reflexivity |]). contradiction.
Qed.

Lemma digits_texto_de (ds : list Z) :
  Forall (fun d => (0 <= d <= 9)%Z) ds ->
  Spec.digits (texto_de ds) = ds
  /\ forall c, In c (texto_de ds) -> escrita c = Some 48%N.
Proof.
  unfold Spec.digits, texto_de.
  induction 1 as [| d ds Hd Hds [IH1 IH2]]; cbn [List.map List.filter].
  - split; [reflexivity | contradiction].
  - destruct (decimal_caractere d Hd) as [H1 H2].
    destruct (valor_decimal_escrita _ _ H1) as (_ & _ & H3).
    rewrite H3. cbn [List.map]. rewrite H2, IH1.
    split; [reflexivity |]. intros c [<- | Hc]; auto.
Qed.

Lemma check_digit_range (w : Z) (ds : list Z) :
  (0 <= Spec.check_digit w ds <= 9)%Z.
Proof.
  unfold Spec.check_digit.
  pose proof (Z.mod_pos_bound (Spec.weighted_sum w ds) 11 ltac:(lia)).
  destruct (Z.ltb_spec (Spec.weighted_sum w ds mod 11) 2); lia.
Qed.

(** X9. Nine digits completed by their two check digits (the first
    computed with weights 10 down to 2, the second with weights 11 down to 2
    over the nine digits and the first check digit) are accepted by
    [validar_cpf], unless the eleven digits are all the same. *)
Theorem validar_cpf_completa (ds : list Z) :
  List.length ds = 9%nat ->
  Forall (fun d => (0 <= d <= 9)%Z) ds ->
  validar_cpf
    (texto_de (ds ++ [Spec.check_digit 10 ds;
                      Spec.check_digit 11 (ds ++ [Spec.check_digit 10 ds])])) =
  Retorna
    (negb (Spec.all_identical
             (ds ++ [Spec.check_digit 10 ds;
                     Spec.check_digit 11 (ds ++ [Spec.check_digit 10 ds])]))).
Proof.
  intros Hlen Hds.
  set (d9 := Spec.check_digit 10 ds).
  set (d10 := Spec.check_digit 11 (ds ++ [d9])).
  assert (Hall : Forall (fun d => (0 <= d <= 9)%Z) (ds ++ [d9; d10])).
  { apply Forall_app. split; [exact Hds |].
    repeat constructor; apply check_digit_range. }
  destruct (digits_texto_de _ Hall) as [Hdig Hdec].
  rewrite (validar_cpf_uma_escrita _ 48%N) by (intros c Hc _; apply Hdec; exact Hc).
  f_equal. unfold Spec.validate. cbv zeta. rewrite Hdig.
  assert (H9 : firstn 9 (ds ++ [d9; d10]) = ds).
  { rewrite <- Hlen. rewrite firstn_app, firstn_all, Nat.sub_diag. cbn. apply app_nil_r. }
  assert (H10 : firstn 10 (ds ++ [d9; d10]) = ds ++ [d9]).
  { rewrite firstn_app, Hlen. rewrite firstn_all2 by lia. reflexivity. }
  assert (Hn9 : nth 9 (ds ++ [d9; d10]) 0%Z = d9).
  { rewrite app_nth2 by lia. rewrite Hlen. reflexivity. }
  assert (Hn10 : nth 10 (ds ++ [d9; d10]) 0%Z = d10).
  { rewrite app_nth2 by lia. rewrite Hlen. reflexivity. }
  rewrite H9, H10, Hn9, Hn10. fold d9. fold d10. rewrite !Z.eqb_refl.
  rewrite length_app, Hlen. cbn [List.length Nat.add Nat.eqb andb].
  rewrite !andb_true_r. reflexivity.
Qed.

(** X10. Eleven times the same decimal character is refused, although
    such a candidate passes both check-digit equations: the repetition
    test is what refuses it. *)
Theorem validar_cpf_rejeita_repetidos (c : N) :
  decimal c = true ->
  validar_cpf (repeat c 11) = Retorna false
  /\ Spec.check_digit 10 (List.repeat (Spec.digit_value c) 9) = Spec.digit_value c
  /\ Spec.check_digit 11 (List.repeat (Spec.digit_value c) 10) = Spec.digit_value c.
Proof.
  intros Hc. split.
  - unfold validar_cpf. cbv zeta. cbn [repeat List.filter].
    rewrite (decimal_isdigit c Hc). cbn [List.length Nat.eqb negb indice nth_error ligar repeat].
    rewrite str_eqb_refl. reflexivity.
  - pose proof (digit_value_range c) as Hr.
    assert (H : In (Spec.digit_value c) [0; 1; 2; 3; 4; 5; 6; 7; 8; 9]%Z) by (cbn; lia).
    cbn in H.
    repeat (destruct H as [<- | H]; [split; reflexivity |]). contradiction.
Qed.

(** * The first revision *)

(** Unfolds the methods of both revisions and decides their tests. *)
Ltac abrir_metodos :=
  unfold Rev1.registrar, registrar, Rev1.depositar, depositar, Rev1.sacar, sacar,
    Rev1.ContaCorrente_sacar, ContaCorrente_sacar, ContaCorrente_depositar,
    Rev1.Conta_depositar, Conta_depositar, Rev1.Conta_sacar, Conta_sacar;
  cbn [classe valor _saldo _limite _limite_saques _numero_saques da_conta];
  repeat match goal with
         | |- context [PrimFloat.leb ?a ?b] => destruct (PrimFloat.leb a b) eqn:?
         | |- context [PrimFloat.ltb ?a ?b] => destruct (PrimFloat.ltb a b) eqn:?
         | |- context [(?a >=? ?b)%Z] => destruct (a >=? b)%Z eqn:?
         end;
  cbn -[PrimFloat.add PrimFloat.sub strftime].

(** X11. In the first revision the entry appended for a registered
    transaction carries the class name, the amount and the formatted date
    of that very transaction; a refused transaction leaves the object as
    it was; and registering never reads the clock. *)
Theorem Rev1_registro_com_data_da_transacao (t : Transacao) (conta : Objeto) (w : Rev1.Mundo) :
  (fst (fst (Rev1.registrar t conta w)) = true ->
     transacoes (historico (snd (fst (Rev1.registrar t conta w)))) =
       transacoes (historico conta)
         ++ [mk_Registro (__name__ (classe t)) (valor t) (strftime (data t))])
  /\ (fst (fst (Rev1.registrar t conta w)) = false ->
      snd (fst (Rev1.registrar t conta w)) = conta)
  /\ Rev1.tique (snd (Rev1.registrar t conta w)) = Rev1.tique w.
Proof.
  destruct conta as [[s n a k h] | [[s n a k h] l ls ns]]; destruct t as [[|] v d];
    abrir_metodos; repeat split; intros H; solve [reflexivity | discriminate H].
Qed.

(** X12. In the first revision a deposit or a withdrawal called on the
    account directly never touches the history, even when it changes the
    balance: a deposit of an amount that is not [<= 0] is accepted, the
    balance becomes the binary64 sum of the balance and the amount, and the
    history stays as it was. *)
Theorem Rev1_chamada_direta_sem_historico (conta : Objeto) (v : float) (w : Rev1.Mundo) :
  historico (snd (fst (Rev1.depositar conta v w))) = historico conta
  /\ historico (snd (fst (Rev1.sacar conta v w))) = historico conta
  /\ ((v <=? 0) = false ->
      fst (fst (Rev1.depositar conta v w)) = true
      /\ saldo (snd (fst (Rev1.depositar conta v w))) = saldo conta + v).
Proof.
  split; [| split].
  - destruct conta as [[s n a k h] | [[s n a k h] l ls ns]]; abrir_metodos; reflexivity.
  - destruct conta as [[s n a k h] | [[s n a k h] l ls ns]]; abrir_metodos; reflexivity.
  - intros Hv.
    destruct conta as [[s n a k h] | [[s n a k h] l ls ns]];
      unfold Rev1.depositar, Rev1.Conta_depositar; cbn [da_conta]; rewrite Hv;
      split; reflexivity.
Qed.

(** ** From the first revision to the second *)

Ltac fechar_par :=
  unfold iguais_sem_datas, saldo, historico, atributos_fixos;
  cbn -[PrimFloat.add PrimFloat.sub strftime];
  unfold sem_datas in *; cbn [transacoes] in *; rewrite ?map_app; cbn [List.map reg_tipo reg_valor];
  repeat split; congruence.

(** Registering the same transaction on two objects that differ at most
    by the dates of their histories gives the same result in both
    revisions, and objects that again differ at most by those dates. *)
Lemma Rev1_registrar_acompanha (t : Transacao) (o1 o2 : Objeto) (w1 : Rev1.Mundo) (w2 : Mundo) :
  iguais_sem_datas o1 o2 ->
  fst (fst (Rev1.registrar t o1 w1)) = fst (fst (registrar t o2 w2))
  /\ iguais_sem_datas (snd (fst (Rev1.registrar t o1 w1))) (snd (fst (registrar t o2 w2))).
Proof.
  intros (Hs & Ha & Hh & Hn).
  destruct o1 as [c1 | c1], o2 as [c2 | c2]; try contradiction;
    unfold saldo, historico, atributos_fixos in *; cbn [conta_de] in *.
  - destruct c1 as [s1 n1 a1 k1 h1], c2 as [s2 n2 a2 k2 h2]. cbn in Hs, Ha, Hh.
    injection Ha as -> -> ->. subst s2.
    destruct t as [[|] v d]; abrir_metodos; fechar_par.
  - destruct c1 as [[s1 n1 a1 k1 h1] l1 ls1 ns1], c2 as [[s2 n2 a2 k2 h2] l2 ls2 ns2].
    cbn in Hs, Ha, Hh, Hn.
    injection Ha as -> -> -> -> ->. subst s2 ns2.
    destruct t as [[|] v d]; abrir_metodos; fechar_par.
Qed.

(** X13. The two revisions agree on what registering transactions does:
    the same transactions registered in order, on objects that differ at
    most by the dates of their histories, return the same results and leave
    the same balance, the same count of withdrawals and the same history up
    to the dates, whatever the two worlds are. *)
Theorem revisoes_concordam (ts : list Transacao) (o1 o2 : Objeto)
    (w1 : Rev1.Mundo) (w2 : Mundo) :
  iguais_sem_datas o1 o2 ->
  fst (fst (registrar_todas Rev1.registrar ts o1 w1)) =
    fst (fst (registrar_todas registrar ts o2 w2))
  /\ iguais_sem_datas (snd (fst (registrar_todas Rev1.registrar ts o1 w1)))
       (snd (fst (registrar_todas registrar ts o2 w2))).
Proof.
  revert o1 o2 w1 w2. induction ts as [| t ts IH]; intros o1 o2 w1 w2 Ho.
  - split; [reflexivity | exact Ho].
  - cbn [registrar_todas fst snd].
    destruct (Rev1_registrar_acompanha t o1 o2 w1 w2 Ho) as [Hr Ho'].
    destruct (IH _ _ (snd (Rev1.registrar t o1 w1)) (snd (registrar t o2 w2)) Ho')
      as [IHr IHo].
    rewrite Hr, IHr. split; [reflexivity | exact IHo].
Qed.

(** * Further runs on concrete objects *)

Lemma total_sacado_limitado_witness :
  (soma_exata
     (saques_aceitos chamadas_exemplo
        (fst (fst (executar chamar_cc (ContaCorrente_init 1%Z 0%nat 500 3%Z)
                     chamadas_exemplo mundo_exemplo))))
   <= inject_Z 3 * exato 500)%Q.
Proof.
  apply (total_sacado_limitado 1%Z 0%nat 500 3%Z chamadas_exemplo mundo_exemplo).
  - reflexivity.
  - reflexivity.
  - lia.
  - repeat constructor.
Defined.

Lemma validar_cpf_so_levanta_ValueError_witness :
  validar_cpf cpf_sobrescrito = Levanta ValueError
  /\ List.length (List.filter isdigit cpf_sobrescrito) = 11%nat.
Proof.
  split; [reflexivity |].
  apply (validar_cpf_so_levanta_ValueError cpf_sobrescrito ValueError). reflexivity.
Defined.


Lemma validar_cpf_ignora_separadores_witness :
  validar_cpf (texto "529" ++ texto " . " ++ texto "98224725") =
    validar_cpf (texto "529" ++ texto "98224725").
Proof.
  apply (validar_cpf_ignora_separadores (texto "529") (texto " . ") (texto "98224725")).
  intros c Hc. cbn in Hc.
  repeat (destruct Hc as [<- | Hc]; [reflexivity |]). contradiction.
Defined.

Lemma validar_cpf_completa_witness :
  Spec.check_digit 10 [5; 2; 9; 9; 8; 2; 2; 4; 7]%Z = 2%Z
  /\ validar_cpf
       (texto_de ([5; 2; 9; 9; 8; 2; 2; 4; 7]%Z
                  ++ [Spec.check_digit 10 [5; 2; 9; 9; 8; 2; 2; 4; 7]%Z;
                      Spec.check_digit 11
                        ([5; 2; 9; 9; 8; 2; 2; 4; 7]%Z
                         ++ [Spec.check_digit 10 [5; 2; 9; 9; 8; 2; 2; 4; 7]%Z])])) =
     Retorna
       (negb (Spec.all_identical
                ([5; 2; 9; 9; 8; 2; 2; 4; 7]%Z
                 ++ [Spec.check_digit 10 [5; 2; 9; 9; 8; 2; 2; 4; 7]%Z;
                     Spec.check_digit 11
                       ([5; 2; 9; 9; 8; 2; 2; 4; 7]%Z
                        ++ [Spec.check_digit 10 [5; 2; 9; 9; 8; 2; 2; 4; 7]%Z])]))).
Proof.
  split; [reflexivity |].
  apply (validar_cpf_completa [5; 2; 9; 9; 8; 2; 2; 4; 7]%Z).
  - reflexivity.
  - repeat constructor; lia.
Defined.

Lemma validar_cpf_rejeita_repetidos_witness :
  validar_cpf (repeat 0x667%N 11) = Retorna false
  /\ Spec.check_digit 10 (List.repeat (Spec.digit_value 0x667%N) 9) = Spec.digit_value 0x667%N
  /\ Spec.check_digit 11 (List.repeat (Spec.digit_value 0x667%N) 10) = Spec.digit_value 0x667%N.
Proof.
  apply (validar_cpf_rejeita_repetidos 0x667%N). reflexivity.
Defined.

Lemma Rev1_registro_com_data_da_transacao_witness :
  transacoes
    (historico
       (snd (fst (Rev1.registrar (mk_Transacao Deposito 100 (relogio mundo_exemplo 0))
                    (UmaContaCorrente conta_exemplo) mundo1_exemplo)))) =
    [mk_Registro "Deposito" 100 "04-11-2026 12:00:00"]
  /\ snd (fst (Rev1.registrar (mk_Transacao Saque 100 (relogio mundo_exemplo 0))
                 (UmaContaCorrente conta_exemplo) mundo1_exemplo)) =
       UmaContaCorrente conta_exemplo.
Proof.
  split.
  - apply (proj1 (Rev1_registro_com_data_da_transacao
                    (mk_Transacao Deposito 100 (relogio mundo_exemplo 0))
                    (UmaContaCorrente conta_exemplo) mundo1_exemplo)).
    reflexivity.
  - apply (proj1 (proj2 (Rev1_registro_com_data_da_transacao
                           (mk_Transacao Saque 100 (relogio mundo_exemplo 0))
                           (UmaContaCorrente conta_exemplo) mundo1_exemplo))).
    reflexivity.
Defined.

Lemma Rev1_chamada_direta_sem_historico_witness :
  saldo (snd (fst (Rev1.depositar (UmaContaCorrente conta_exemplo) 100 mundo1_exemplo))) =
    saldo (UmaContaCorrente conta_exemplo) + 100
  /\ historico (snd (fst (Rev1.depositar (UmaContaCorrente conta_exemplo) 100 mundo1_exemplo))) =
       historico (UmaContaCorrente conta_exemplo).
Proof.
  split.
  - apply (proj2 (proj2 (Rev1_chamada_direta_sem_historico
                           (UmaContaCorrente conta_exemplo) 100 mundo1_exemplo))).
    reflexivity.
  - apply (proj1 (Rev1_chamada_direta_sem_historico
                    (UmaContaCorrente conta_exemplo) 100 mundo1_exemplo)).
Defined.

Lemma revisoes_concordam_witness :
  fst (fst (registrar_todas Rev1.registrar transacoes_exemplo
              (UmaContaCorrente conta_exemplo) mundo1_exemplo)) =
    [true; true; false]
  /\ fst (fst (registrar_todas Rev1.registrar transacoes_exemplo
                 (UmaContaCorrente conta_exemplo) mundo1_exemplo)) =
     fst (fst (registrar_todas registrar transacoes_exemplo
                 (UmaContaCorrente conta_exemplo) mundo_exemplo)).
Proof.
  split; [reflexivity |].
  apply (revisoes_concordam transacoes_exemplo (UmaContaCorrente conta_exemplo)
           (UmaContaCorrente conta_exemplo) mundo1_exemplo mundo_exemplo).
  repeat split.
Defined.

(** * The clients and the menu functions *)

Lemma str_eqb_spec (a b : str) : reflect (a = b) (str_eqb a b).
Proof.
  destruct (str_eqb a b) eqn:H; constructor.
  - apply str_eqb_eq. exact H.
  - intros Heq. apply str_eqb_eq in Heq. congruence.
Qed.

(** The first pair kept by the filter of [filtrar_cliente], for positions
    counted from [k]. *)
Lemma primeiro_filtrado (cpf : str) (clientes : list PessoaFisica) :
  forall k : nat,
    match List.filter (fun ic => str_eqb (_cpf (snd ic)) cpf)
            (List.combine (seq k (List.length clientes)) clientes) with
    | [] => forall c, In c clientes -> _cpf c <> cpf
    | (i, c) :: _ =>
        exists j, i = (k + j)%nat
          /\ nth_error clientes j = Some c
          /\ _cpf c = cpf
          /\ forall j' c', (j' < j)%nat -> nth_error clientes j' = Some c' -> _cpf c' <> cpf
    end.
Proof.
  induction clientes as [| c0 clientes IH]; intros k.
  - cbn. intros c [].
  - cbn [List.length seq List.combine List.filter snd].
    destruct (str_eqb_spec (_cpf c0) cpf) as [Heq | Hne].
    + exists 0%nat. repeat split; [lia | exact Heq |]. intros j' c' Hj. lia.
    + specialize (IH (S k)).
      destruct (List.filter _ _) as [| [i c] rest].
      * intros c [<- | Hc]; [exact Hne | apply IH; exact Hc].
      * destruct IH as (j & Hi & Hn & Hc & Hmin).
        exists (S j). repeat split; [lia | exact Hn | exact Hc |].
        intros j' c' Hj Hn'. destruct j' as [| j'].
        -- cbn in Hn'. injection Hn' as <-. exact Hne.
        -- apply (Hmin j' c'); [lia | exact Hn'].
Qed.

(** What [filtrar_cliente] returns: the first client with the text given
    as [cpf], with its position; or nothing, when no client has it. *)
Lemma filtrar_cliente_casos (cpf : str) (clientes : list PessoaFisica) :
  match Menu.filtrar_cliente cpf clientes with
  | Some (i, c) =>
      nth_error clientes i = Some c
      /\ _cpf c = cpf
      /\ forall j c', (j < i)%nat -> nth_error clientes j = Some c' -> _cpf c' <> cpf
  | None => forall c, In c clientes -> _cpf c <> cpf
  end.
Proof.
  unfold Menu.filtrar_cliente. cbv zeta.
  pose proof (primeiro_filtrado cpf clientes 0) as H.
  destruct (List.filter _ _) as [| [i c] rest].
  - exact H.
  - destruct H as (j & -> & Hn & Hc & Hmin). cbn. auto.
Qed.

(** X14. [filtrar_cliente] returns a client at a position exactly when
    that client is the first of the list whose CPF text equals the text
    given, and returns nothing exactly when no client of the list has that
    text. *)
Theorem filtrar_cliente_primeiro (cpf : str) (clientes : list PessoaFisica) :
  (forall i c,
     Menu.filtrar_cliente cpf clientes = Some (i, c) <->
     nth_error clientes i = Some c
     /\ _cpf c = cpf
     /\ forall j c', (j < i)%nat -> nth_error clientes j = Some c' -> _cpf c' <> cpf)
  /\ (Menu.filtrar_cliente cpf clientes = None <->
      forall c, In c clientes -> _cpf c <> cpf).
Proof.
  pose proof (filtrar_cliente_casos cpf clientes) as H.
  destruct (Menu.filtrar_cliente cpf clientes) as [[i0 c0] |].
  - destruct H as (Hn0 & Hc0 & Hmin0). split.
    + intros i c. split.
      * intros Heq. injection Heq as <- <-. auto.
      * intros (Hn & Hc & Hmin).
        destruct (Nat.lt_trichotomy i0 i) as [Hlt | [-> | Hlt]].
        -- exfalso. apply (Hmin i0 c0 Hlt Hn0 Hc0).
        -- rewrite Hn0 in Hn. injection Hn as <-. reflexivity.
        -- exfalso. apply (Hmin0 i c Hlt Hn Hc).
    + split; [discriminate |]. intros Hall. exfalso.
      apply (Hall c0 (nth_error_In _ _ Hn0) Hc0).
  - split.
    + intros i c. split; [discriminate |]. intros (Hn & Hc & _). exfalso.
      apply (H c (nth_error_In _ _ Hn) Hc).
    + split; auto.
Qed.

Section Menu_criar_usuario.

Variable strptime_ok : str -> bool.

(** X15. [criar_usuario] keeps the texts of the CPFs of the registered
    clients pairwise different. It either leaves the list as it was, or
    adds at its end one client without accounts, built from the four lines
    typed, whose CPF text passed [validar_cpf], whose date passed the date
    check and whose CPF text no client had; or it raises the [ValueError]
    that [validar_cpf] raised, and raises nothing else. *)
Theorem criar_usuario_cpf_unico (clientes : list PessoaFisica) (t : Terminal) :
  (exists cl',
     fst (Menu.criar_usuario strptime_ok clientes t) = Retorna cl'
     /\ (cl' = clientes
         \/ exists c, cl' = clientes ++ [c]
              /\ c = PessoaFisica_init (entrada t (S (lidas t)))
                       (entrada t (S (S (lidas t)))) (entrada t (lidas t))
                       (entrada t (S (S (S (lidas t)))))
              /\ validar_cpf (_cpf c) = Retorna true
              /\ strptime_ok (_data_nascimento c) = true
              /\ forall c0, In c0 clientes -> _cpf c0 <> _cpf c)
     /\ (NoDup (List.map _cpf clientes) -> NoDup (List.map _cpf cl')))
  \/ (fst (Menu.criar_usuario strptime_ok clientes t) = Levanta ValueError
      /\ validar_cpf (entrada t (lidas t)) = Levanta ValueError).
Proof.
  unfold Menu.criar_usuario, cli_bind, input, avaliar. cbn [fst snd].
  destruct (validar_cpf (entrada t (lidas t))) as [[|] | e] eqn:Hv; cbn [negb].
  - pose proof (filtrar_cliente_casos (entrada t (lidas t)) clientes) as Hf.
    destruct (Menu.filtrar_cliente (entrada t (lidas t)) clientes) as [[i c] |].
    + left. exists clientes. cbn. auto.
    + cbn [entrada lidas tela relogio_t tique_t].
      destruct (strptime_ok (entrada t (S (S (lidas t))))) eqn:Hd; cbn [negb].
      * left. eexists. cbn. split; [reflexivity |]. split.
        -- right. eexists. split; [reflexivity |]. split; [reflexivity |].
           cbn. auto.
        -- intros Hnd. rewrite map_app. cbn.
           apply NoDup_app; [exact Hnd | repeat constructor; intros [] |].
           intros x Hx [<- | []]. apply in_map_iff in Hx.
           destruct Hx as (c0 & Hc0 & Hin). apply (Hf c0 Hin Hc0).
      * left. exists clientes. cbn. auto.
  - left. exists clientes. cbn. auto.
  - right. destruct (proj1 (validar_cpf_onze _) e Hv) as [-> _]. cbn. auto.
Qed.

End Menu_criar_usuario.

Lemma filtrar_cliente_nenhum (cpf : str) (clientes : list PessoaFisica) :
  (forall c, In c clientes -> _cpf c <> cpf) ->
  Menu.filtrar_cliente cpf clientes = None.
Proof.
  intros H. pose proof (filtrar_cliente_casos cpf clientes) as Hf.
  destruct (Menu.filtrar_cliente cpf clientes) as [[i c] |]; [| reflexivity].
  destruct Hf as (Hn & Hc & _). apply nth_error_In in Hn.
  exfalso. apply (H c Hn Hc).
Qed.

Lemma validar_cpf_filtrado (s1 s2 : str) :
  List.filter isdigit s1 = List.filter isdigit s2 -> validar_cpf s1 = validar_cpf s2.
Proof. intros H. unfold validar_cpf. cbv zeta. rewrite H. reflexivity. Qed.

Section Menu_criar_usuario2.

Variable strptime_ok : str -> bool.

(** X16. [criar_usuario] compares the texts typed, not the digits: a CPF
    that a client already holds is registered again, for a second client,
    when it is typed with other separators (the same digit characters, a
    text that no client has). *)
Theorem criar_usuario_mesmo_cpf_pontuado (clientes : list PessoaFisica) (t : Terminal)
    (c1 : PessoaFisica) :
  In c1 clientes ->
  validar_cpf (_cpf c1) = Retorna true ->
  List.filter isdigit (entrada t (lidas t)) = List.filter isdigit (_cpf c1) ->
  (forall c, In c clientes -> _cpf c <> entrada t (lidas t)) ->
  strptime_ok (entrada t (S (S (lidas t)))) = true ->
  fst (Menu.criar_usuario strptime_ok clientes t) =
    Retorna (clientes
               ++ [PessoaFisica_init (entrada t (S (lidas t)))
                     (entrada t (S (S (lidas t)))) (entrada t (lidas t))
                     (entrada t (S (S (S (lidas t)))))]).
Proof.
  intros Hin Hv Hf Hne Hd.
  unfold Menu.criar_usuario, cli_bind, input, avaliar. cbn [fst snd].
  rewrite (validar_cpf_filtrado _ _ Hf), Hv. cbn [negb].
  rewrite (filtrar_cliente_nenhum _ _ Hne).
  cbn [entrada lidas tela relogio_t tique_t]. rewrite Hd. reflexivity.
Qed.

End Menu_criar_usuario2.

Lemma nth_error_substituir {A : Type} (l : list A) (i : nat) (x : A) :
  forall j, nth_error (substituir l i x) j =
            if (j =? i)%nat then (if (i <? List.length l)%nat then Some x else None)
            else nth_error l j.
Proof.
  revert i. induction l as [| y l IH]; intros i j.
  - cbn. destruct (j =? i)%nat; destruct j; reflexivity.
  - destruct i as [| i], j as [| j]; cbn [substituir nth_error]; try reflexivity.
    rewrite IH. cbn [Nat.eqb List.length]. 
    destruct (j =? i)%nat; [| reflexivity].
    change (S i <? S (List.length l))%nat with (i <? List.length l)%nat. reflexivity.
Qed.

Lemma length_substituir {A : Type} (l : list A) (i : nat) (x : A) :
  List.length (substituir l i x) = List.length l.
Proof.
  revert i. induction l as [| y l IH]; intros [| i]; cbn; auto.
Qed.

Lemma substituir_mesmo {A : Type} (l : list A) (i : nat) (x : A) :
  nth_error l i = Some x -> substituir l i x = l.
Proof.
  revert i. induction l as [| y l IH]; intros [| i] H; cbn in *; try discriminate.
  - injection H as ->. reflexivity.
  - rewrite IH by exact H. reflexivity.
Qed.

Lemma map_substituir {A B : Type} (f : A -> B) (l : list A) (i : nat) (x y : A) :
  nth_error l i = Some y -> f x = f y -> List.map f (substituir l i x) = List.map f l.
Proof.
  revert i. induction l as [| z l IH]; intros [| i] H Hf; cbn in *; try discriminate.
  - injection H as ->. rewrite Hf. reflexivity.
  - rewrite IH by assumption. reflexivity.
Qed.

(** X17. [criar_conta] keeps the two lists consistent: afterwards every
    account still names its holder as owner and [contas] still refers to
    each account once. It never raises; it leaves the CPF texts as they
    were; when no client has the text typed nothing changes, and otherwise
    one [ContaCorrente] with the number given and the default limits is
    added to the first client with that text and to [contas]. *)
Theorem criar_conta_consistente (numero_conta : Z) (clientes : list PessoaFisica)
    (contas : list (RefCliente * nat)) (t : Terminal) :
  banco_consistente clientes contas ->
  exists cl' ct',
    fst (Menu.criar_conta numero_conta clientes contas t) = Retorna (cl', ct')
    /\ banco_consistente cl' ct'
    /\ List.map _cpf cl' = List.map _cpf clientes
    /\ match Menu.filtrar_cliente (entrada t (lidas t)) clientes with
       | None => cl' = clientes /\ ct' = contas
       | Some (i, c) =>
           cl' = substituir clientes i
                   (adicionar_conta c
                      (UmaContaCorrente (ContaCorrente_nova_conta i numero_conta)))
           /\ ct' = contas ++ [(i, List.length (_contas c))]
       end.
Proof.
  intros (Hown & Href & Hnd).
  unfold Menu.criar_conta, cli_bind, input. cbn [fst snd].
  pose proof (filtrar_cliente_casos (entrada t (lidas t)) clientes) as Hf.
  destruct (Menu.filtrar_cliente (entrada t (lidas t)) clientes) as [[i c] |].
  2:{ exists clientes, contas. cbn. repeat split; auto; apply Href. }
  destruct Hf as (Hi & Hcpf & _).
  assert (Hlt : (i < List.length clientes)%nat)
    by (apply nth_error_Some; rewrite Hi; discriminate).
  eexists; eexists. cbn. split; [reflexivity |].
  split; [| split; [| split; reflexivity]].
  - split; [| split].
    + intros j cj conta Hj Hin. rewrite nth_error_substituir in Hj.
      destruct (Nat.eqb_spec j i) as [-> | Hne].
      * apply Nat.ltb_lt in Hlt. rewrite Hlt in Hj. injection Hj as <-.
        cbn in Hin. apply in_app_or in Hin. destruct Hin as [Hin | [<- | []]].
        -- apply (Hown i c conta Hi Hin).
        -- reflexivity.
      * apply (Hown j cj conta Hj Hin).
    + intros j k. rewrite in_app_iff, Href. cbn [In]. split.
      * intros [(cj & Hj & Hk) | [Heq | []]].
        -- rewrite nth_error_substituir. destruct (Nat.eqb_spec j i) as [-> | Hne].
           ++ apply Nat.ltb_lt in Hlt. rewrite Hlt. eexists. split; [reflexivity |].
              cbn. rewrite length_app. rewrite Hi in Hj. injection Hj as <-. lia.
           ++ exists cj. auto.
        -- injection Heq as <- <-. rewrite nth_error_substituir, Nat.eqb_refl.
           apply Nat.ltb_lt in Hlt. rewrite Hlt. eexists. split; [reflexivity |].
           cbn. rewrite length_app. cbn. lia.
      * intros (cj & Hj & Hk). rewrite nth_error_substituir in Hj.
        destruct (Nat.eqb_spec j i) as [-> | Hne].
        -- apply Nat.ltb_lt in Hlt. rewrite Hlt in Hj. injection Hj as <-.
           cbn in Hk. rewrite length_app in Hk. cbn in Hk.
           destruct (Nat.eq_dec k (List.length (_contas c))) as [-> | Hk'].
           ++ right. left. reflexivity.
           ++ left. exists c. split; [exact Hi | lia].
        -- left. exists cj. auto.
    + apply NoDup_app; [exact Hnd | repeat constructor; intros [] |].
      intros [j k] Hin [Heq | []]. injection Heq as <- <-.
      apply Href in Hin. destruct Hin as (c' & Hc' & Hk).
      rewrite Hi in Hc'. injection Hc' as <-. lia.
  - apply (map_substituir _cpf clientes i _ c Hi). reflexivity.
Qed.

(** X18. Creating one more account for a client that has one does not
    change the account that [recuperar_conta_cliente] selects: it is still
    the first account, so the new one is out of reach of the menu's
    deposits and withdrawals. *)
Theorem conta_selecionada_e_a_primeira (numero_conta : Z) (clientes : list PessoaFisica)
    (contas : list (RefCliente * nat)) (t : Terminal) (i : RefCliente) (c : PessoaFisica) :
  Menu.filtrar_cliente (entrada t (lidas t)) clientes = Some (i, c) ->
  _contas c <> [] ->
  exists cl' ct' c',
    fst (Menu.criar_conta numero_conta clientes contas t) = Retorna (cl', ct')
    /\ nth_error cl' i = Some c'
    /\ List.length (_contas c') = S (List.length (_contas c))
    /\ forall t' : Terminal,
         fst (Menu.recuperar_conta_cliente c' t') = Retorna (hd_error (_contas c))
         /\ fst (Menu.recuperar_conta_cliente c t') = Retorna (hd_error (_contas c)).
Proof.
  intros Hf Hne.
  pose proof (filtrar_cliente_casos (entrada t (lidas t)) clientes) as Hp.
  rewrite Hf in Hp. destruct Hp as (Hi & _ & _).
  assert (Hlt : (i < List.length clientes)%nat)
    by (apply nth_error_Some; rewrite Hi; discriminate).
  unfold Menu.criar_conta, cli_bind, input. cbn [fst snd]. rewrite Hf.
  eexists; eexists; eexists. cbn. split; [reflexivity |].
  rewrite nth_error_substituir, Nat.eqb_refl.
  apply Nat.ltb_lt in Hlt. rewrite Hlt. split; [reflexivity |].
  split; [cbn; rewrite length_app; cbn; lia |].
  intros t'. unfold Menu.recuperar_conta_cliente, cli_bind, escrever. cbn.
  destruct (_contas c) as [| conta resto]; [contradiction |]. cbn. auto.
Qed.

(** [registrar] is one call on the account. *)
Lemma registrar_chamar (tr : Transacao) (conta : Objeto) (w : Mundo) :
  registrar tr conta w =
    chamar conta (match classe tr with
                  | Deposito => Depositar (valor tr)
                  | Saque => Sacar (valor tr)
                  end) w.
Proof. unfold registrar. destruct (classe tr); reflexivity. Qed.

Section Menu_movimentar.

Variable float_ : str -> option float.

(** The list that [depositar(clientes)] or [sacar(clientes)] leaves. *)
Lemma movimentar_casos (pergunta : Pergunta) (cl : Classe) (sucesso : Texto)
    (clientes : list PessoaFisica) (t : Terminal) :
  fst (Menu.movimentar float_ pergunta cl sucesso clientes t) =
    Retorna
      match Menu.filtrar_cliente (entrada t (lidas t)) clientes with
      | None => clientes
      | Some (i, c) =>
          match float_ (entrada t (S (lidas t))) with
          | None => clientes
          | Some v =>
              match _contas c with
              | [] => clientes
              | conta :: resto =>
                  substituir clientes i
                    (set_contas c
                       (snd (fst (registrar
                                    (mk_Transacao cl v (relogio_t t (tique_t t))) conta
                                    (mk_Mundo (relogio_t t) (S (tique_t t)) [])))
                          :: resto))
              end
          end
      end.
Proof.
  unfold Menu.movimentar, cli_bind, input. cbn [fst snd].
  destruct (Menu.filtrar_cliente (entrada t (lidas t)) clientes) as [[i c] |];
    [| reflexivity].
  cbn [entrada lidas tela relogio_t tique_t fst snd].
  destruct (float_ (entrada t (S (lidas t)))) as [v |]; [| reflexivity].
  unfold elevar, Transacao_init, bind, datetime_now, ret.
  cbn [fst snd entrada lidas tela relogio_t tique_t relogio tique stdout].
  unfold Menu.recuperar_conta_cliente.
  destruct (_contas c) as [| conta resto]; [reflexivity |].
  unfold cli_bind, escrever, cli_ret, Menu.realizar_transacao, elevar.
  cbn [fst snd entrada lidas tela relogio_t tique_t relogio tique stdout substituir].
  destruct (fst (fst (registrar _ conta _))); reflexivity.
Qed.

End Menu_movimentar.

Lemma depositar_positivo (o : Objeto) (v : float) (w : Mundo) :
  (v <=? 0) = false ->
  fst (fst (depositar o v w)) = true
  /\ snd (depositar o v w) = avancar w
  /\ saldo (snd (fst (depositar o v w))) = saldo o + v
  /\ transacoes (historico (snd (fst (depositar o v w)))) =
       transacoes (historico o) ++ [registro_de Deposito v w].
Proof.
  intros Hv. destruct o as [self | self]; cbn [depositar]; unfold bind.
  - rewrite Conta_depositar_aceito by assumption. repeat split.
  - destruct (ContaCorrente_depositar_casos self v w) as [[Hle _] | [_ H]].
    + congruence.
    + rewrite H. repeat split.
Qed.

Lemma set_contas_mesmo (c : PessoaFisica) : set_contas c (_contas c) = c.
Proof. destruct c; reflexivity. Qed.

Section Menu_movimentar2.

Variable float_ : str -> option float.

(** X19. A deposit or a withdrawal from the menu never raises and never
    adds or removes a client or an account. It can change nothing but the
    first account of a client whose CPF text is the text typed: every
    other account, the fixed attributes of every account and everything
    else about every client stay as they were, and the two lists stay
    consistent. *)
Theorem movimentar_so_a_primeira_conta (pergunta : Pergunta) (cl : Classe) (sucesso : Texto)
    (clientes : list PessoaFisica) (contas : list (RefCliente * nat)) (t : Terminal) :
  exists cl',
    fst (Menu.movimentar float_ pergunta cl sucesso clientes t) = Retorna cl'
    /\ List.length cl' = List.length clientes
    /\ (forall j cj,
          nth_error clientes j = Some cj ->
          exists cj',
            nth_error cl' j = Some cj'
            /\ set_contas cj (_contas cj') = cj'
            /\ tl (_contas cj') = tl (_contas cj)
            /\ List.map atributos_fixos (_contas cj') = List.map atributos_fixos (_contas cj)
            /\ (_cpf cj <> entrada t (lidas t) -> cj' = cj))
    /\ (banco_consistente clientes contas -> banco_consistente cl' contas).
Proof.
  rewrite movimentar_casos. eexists. split; [reflexivity |].
  assert (Hsame :
    List.length clientes = List.length clientes
    /\ (forall j cj,
          nth_error clientes j = Some cj ->
          exists cj',
            nth_error clientes j = Some cj'
            /\ set_contas cj (_contas cj') = cj'
            /\ tl (_contas cj') = tl (_contas cj)
            /\ List.map atributos_fixos (_contas cj') = List.map atributos_fixos (_contas cj)
            /\ (_cpf cj <> entrada t (lidas t) -> cj' = cj))
    /\ (banco_consistente clientes contas -> banco_consistente clientes contas)).
  { split; [reflexivity |]. split; [| auto].
    intros j cj Hj. exists cj. rewrite set_contas_mesmo. auto. }
  pose proof (filtrar_cliente_casos (entrada t (lidas t)) clientes) as Hf.
  destruct (Menu.filtrar_cliente (entrada t (lidas t)) clientes) as [[i c] |];
    [| exact Hsame].
  destruct (float_ (entrada t (S (lidas t)))) as [v |]; [| exact Hsame].
  destruct (_contas c) as [| conta resto] eqn:Hcs; [exact Hsame |].
  clear Hsame. destruct Hf as (Hi & Hcpf & _).
  assert (Hlt : (i <? List.length clientes)%nat = true).
  { apply Nat.ltb_lt. apply nth_error_Some. rewrite Hi. discriminate. }
  set (conta' := snd (fst (registrar _ conta _))).
  assert (Ha : atributos_fixos conta' = atributos_fixos conta).
  { subst conta'. rewrite registrar_chamar.
    match goal with
    | |- context [chamar conta ?c ?w] =>
        destruct (chamar_passo conta c w) as [(_ & _ & _ & H) | (_ & H & _)]
    end; [exact H | rewrite H; reflexivity]. }
  split; [apply length_substituir |]. split.
  - intros j cj Hj. rewrite nth_error_substituir.
    destruct (Nat.eqb_spec j i) as [-> | Hne].
    + rewrite Hlt. rewrite Hi in Hj. injection Hj as <-.
      eexists. split; [reflexivity |]. cbn [_contas set_contas].
      split; [reflexivity |]. rewrite Hcs. cbn [tl List.map]. rewrite Ha.
      split; [reflexivity |]. split; [reflexivity |].
      intros Hne. contradiction.
    + exists cj. rewrite set_contas_mesmo. auto.
  - intros (Hown & Href & Hnd). split; [| split; [| exact Hnd]].
    + intros j cj x Hj Hx. rewrite nth_error_substituir in Hj.
      destruct (Nat.eqb_spec j i) as [-> | Hne].
      * rewrite Hlt in Hj. injection Hj as <-. cbn [_contas set_contas] in Hx.
        destruct Hx as [<- | Hx].
        -- apply (f_equal (fun a => snd (fst a))) in Ha. cbn [atributos_fixos fst snd] in Ha.
           rewrite Ha. apply (Hown i c conta Hi). rewrite Hcs. left. reflexivity.
        -- apply (Hown i c x Hi). rewrite Hcs. right. exact Hx.
      * apply (Hown j cj x Hj Hx).
    + intros j k. rewrite Href. split; intros (cj & Hj & Hk).
      * rewrite nth_error_substituir. destruct (Nat.eqb_spec j i) as [-> | Hne].
        -- rewrite Hlt. eexists. split; [reflexivity |].
           rewrite Hi in Hj. injection Hj as <-. rewrite Hcs in Hk. exact Hk.
        -- exists cj. auto.
      * rewrite nth_error_substituir in Hj. destruct (Nat.eqb_spec j i) as [-> | Hne].
        -- rewrite Hlt in Hj. injection Hj as <-. exists c. split; [exact Hi |].
           rewrite Hcs. exact Hk.
        -- exists cj. auto.
Qed.

(** X20. A deposit from the menu, when a client has the text typed, the
    amount typed reads as an amount that is not [<= 0] and the client has
    an account: the balance of the first account of that client becomes the
    binary64 sum of the balance and the amount, and the account gets one
    [Deposito] entry, dated by the second reading of the clock (the first
    went to the transaction built by the menu); two lines were read, and
    the terminal shows the two prompts, the selected account and the text
    of success. *)
Theorem depositar_pelo_menu (clientes : list PessoaFisica) (t : Terminal)
    (i : RefCliente) (c : PessoaFisica) (conta : Objeto) (resto : list Objeto) (v : float) :
  Menu.filtrar_cliente (entrada t (lidas t)) clientes = Some (i, c) ->
  float_ (entrada t (S (lidas t))) = Some v ->
  (v <=? 0) = false ->
  _contas c = conta :: resto ->
  exists conta',
    fst (Menu.depositar float_ clientes t) =
      Retorna (substituir clientes i (set_contas c (conta' :: resto)))
    /\ saldo conta' = saldo conta + v
    /\ transacoes (historico conta') =
         transacoes (historico conta)
           ++ [mk_Registro "Deposito" v (strftime (relogio_t t (S (tique_t t))))]
    /\ tela (snd (Menu.depositar float_ clientes t)) =
         tela t ++ [Entrada InformeCPFCliente; Entrada InformeValorDeposito;
                    SelecionandoConta (_nome c) (_numero (conta_de conta));
                    DepositoRealizado]
    /\ lidas (snd (Menu.depositar float_ clientes t)) = S (S (lidas t))
    /\ tique_t (snd (Menu.depositar float_ clientes t)) = S (S (tique_t t)).
Proof.
  intros Hf Hfl Hv Hcs.
  set (w := mk_Mundo (relogio_t t) (S (tique_t t)) []).
  destruct (depositar_positivo conta v w Hv) as (Hok & Hw & Hs & Hh).
  exists (snd (fst (depositar conta v w))).
  unfold Menu.depositar, Menu.movimentar, cli_bind, input. cbn [fst snd].
  rewrite Hf. cbn [entrada lidas tela relogio_t tique_t fst snd]. rewrite Hfl.
  unfold elevar, Transacao_init, bind, datetime_now, ret.
  cbn [fst snd entrada lidas tela relogio_t tique_t relogio tique stdout].
  unfold Menu.recuperar_conta_cliente. rewrite Hcs.
  unfold cli_bind, escrever, cli_ret, Menu.realizar_transacao, elevar, registrar.
  cbn [fst snd entrada lidas tela relogio_t tique_t relogio tique stdout classe valor].
  fold w. rewrite Hok, Hw.
  cbn [fst snd entrada lidas tela relogio_t tique_t relogio tique stdout avancar
       datetime_now w List.map substituir].
  rewrite Hs, Hh. repeat split.
  rewrite !app_nil_r, <- !app_assoc. reflexivity.
Qed.

End Menu_movimentar2.

(** * Runs of the menu functions *)

Lemma filtrar_cliente_primeiro_witness :
  Menu.filtrar_cliente (texto "52998224725") [cliente_sem_conta; cliente_exemplo] =
    Some (0%nat, cliente_sem_conta)
  /\ Menu.filtrar_cliente (texto "529.982.247-25") [cliente_sem_conta; cliente_exemplo] = None.
Proof.
  split.
  - apply (proj1 (filtrar_cliente_primeiro (texto "52998224725") [cliente_sem_conta; cliente_exemplo])).
    split; [reflexivity |]. split; [reflexivity |]. intros j c' Hj. lia.
  - apply (proj2 (filtrar_cliente_primeiro (texto "529.982.247-25") [cliente_sem_conta; cliente_exemplo])).
    intros c [<- | [<- | []]]; discriminate.
Defined.

Lemma criar_usuario_cpf_unico_witness :
  exists cl',
    fst (Menu.criar_usuario strptime_exemplo [cliente_exemplo]
           (terminal_de ["111.444.777-35"%string; "Ana"%string; "01-02-1990"%string; "Rua B, 2"%string])) = Retorna cl'
    /\ NoDup (List.map _cpf cl').
Proof.
  destruct (criar_usuario_cpf_unico strptime_exemplo [cliente_exemplo]
              (terminal_de ["111.444.777-35"%string; "Ana"%string; "01-02-1990"%string; "Rua B, 2"%string]))
    as [(cl' & Hr & _ & Hnd) | [Hr _]].
  - exists cl'. split; [exact Hr |]. apply Hnd. repeat constructor. intros [].
  - discriminate Hr.
Defined.

Lemma criar_usuario_mesmo_cpf_pontuado_witness :
  fst (Menu.criar_usuario strptime_exemplo [cliente_exemplo]
         (terminal_de ["529.982.247-25"%string; "Ana"%string; "01-02-1990"%string; "Rua B, 2"%string])) =
    Retorna [cliente_exemplo;
             PessoaFisica_init (texto "Ana") (texto "01-02-1990") (texto "529.982.247-25")
               (texto "Rua B, 2")].
Proof.
  apply (criar_usuario_mesmo_cpf_pontuado strptime_exemplo [cliente_exemplo]
           (terminal_de ["529.982.247-25"%string; "Ana"%string; "01-02-1990"%string; "Rua B, 2"%string])
           cliente_exemplo).
  - left. reflexivity.
  - reflexivity.
  - reflexivity.
  - intros c [<- | []]. discriminate.
  - reflexivity.
Defined.

Lemma criar_conta_consistente_witness :
  banco_consistente [cliente_sem_conta] []
  /\ exists cl' ct',
       fst (Menu.criar_conta 1 [cliente_sem_conta] [] (terminal_de ["52998224725"%string])) =
         Retorna (cl', ct')
       /\ banco_consistente cl' ct'.
Proof.
  assert (H : banco_consistente [cliente_sem_conta] []).
  { split; [| split].
    - intros [| i] c conta Hc Hin; cbn in Hc.
      + injection Hc as <-. destruct Hin.
      + destruct i; discriminate Hc.
    - intros i k. split.
      + intros [].
      + intros (c & Hc & Hk). destruct i as [| i]; cbn in Hc.
        * injection Hc as <-. cbn in Hk. lia.
        * destruct i; discriminate Hc.
    - constructor. }
  split; [exact H |].
  destruct (criar_conta_consistente 1 [cliente_sem_conta] []
              (terminal_de ["52998224725"%string]) H) as (cl' & ct' & Hr & Hc & _).
  exists cl', ct'. split; assumption.
Defined.

Lemma conta_selecionada_e_a_primeira_witness :
  exists cl' ct' c',
    fst (Menu.criar_conta 2 [cliente_exemplo] [(0%nat, 0%nat)]
           (terminal_de ["52998224725"%string])) = Retorna (cl', ct')
    /\ nth_error cl' 0 = Some c'
    /\ fst (Menu.recuperar_conta_cliente c' (terminal_de [])) =
         Retorna (Some (UmaContaCorrente conta_exemplo)).
Proof.
  destruct (conta_selecionada_e_a_primeira 2 [cliente_exemplo] [(0%nat, 0%nat)]
              (terminal_de ["52998224725"%string]) 0%nat cliente_exemplo)
    as (cl' & ct' & c' & Hr & Hn & _ & Hsel).
  - reflexivity.
  - discriminate.
  - exists cl', ct', c'. split; [exact Hr |]. split; [exact Hn |].
    apply (proj1 (Hsel (terminal_de []))).
Defined.

Lemma movimentar_so_a_primeira_conta_witness :
  exists cl',
    fst (Menu.sacar float_exemplo [cliente_exemplo; cliente_sem_conta]
           (terminal_de ["52998224725"%string; "100"%string])) = Retorna cl'
    /\ List.length cl' = 2%nat.
Proof.
  destruct (movimentar_so_a_primeira_conta float_exemplo InformeValorSaque Saque
              SaqueRealizado [cliente_exemplo; cliente_sem_conta] []
              (terminal_de ["52998224725"%string; "100"%string])) as (cl' & Hr & Hl & _).
  exists cl'. split; assumption.
Defined.

Lemma depositar_pelo_menu_witness :
  exists conta',
    fst (Menu.depositar float_exemplo [cliente_exemplo]
           (terminal_de ["52998224725"%string; "100"%string])) =
      Retorna [set_contas cliente_exemplo [conta']]
    /\ saldo conta' = saldo (UmaContaCorrente conta_exemplo) + 100.
Proof.
  destruct (depositar_pelo_menu float_exemplo [cliente_exemplo]
              (terminal_de ["52998224725"%string; "100"%string]) 0%nat cliente_exemplo
              (UmaContaCorrente conta_exemplo) [] 100)
    as (conta' & Hr & Hs & _).
  - reflexivity.
  - reflexivity.
  - reflexivity.
  - reflexivity.
  - exists conta'. split; [exact Hr | exact Hs].
Defined.
